(** * EngineInstrumentation (src/Engine/babylon.engineInstrumentation.ts)

    A shallow embedding of the class [BABYLON.EngineInstrumentation] and of
    the narrow part of its collaborators ([Engine], [Observable],
    [PerfCounter]) that the class talks to.

    The class is stateful: it keeps private fields, registers closures with
    the engine's observables, and the engine later calls these closures
    back.  The embedding therefore works on a [World] that holds the
    instrumentation object and the engine object it refers to, and runs
    every method and callback in a small state-and-exception monad
    (dereferencing a [null] engine reference throws a JavaScript
    [TypeError], and what was written before the throw stays written). *)

From Stdlib Require Import ZArith QArith List Bool Lia PeanoNat.
Import ListNotations.
Close Scope Q_scope.

Set Implicit Arguments.

(** ** JavaScript values *)

(** [Nullable<T>]; [null] and [undefined] are both falsy and the class only
    ever tests these fields for truthiness, so both are [None]. *)
Definition Nullable (A : Type) : Type := option A.

(** [!x] and [if (x)] on a nullable object reference. *)
Definition truthy {A : Type} (x : Nullable A) : bool :=
  match x with Some _ => true | None => false end.

(** The type [number].  The class only passes numbers on and compares one
    of them with [-1]; a finite double is a rational, and comparing is
    exact, so a number is a rational, an infinity or [NaN]. *)
Inductive number : Type :=
| Finite (q : Q)
| PlusInfinity
| MinusInfinity
| NaN.

(** [a > b] *)
Definition number_gt (a b : number) : bool :=
  match a, b with
  | NaN, _ | _, NaN => false
  | MinusInfinity, _ => false
  | _, PlusInfinity => false
  | PlusInfinity, _ => true
  | Finite _, MinusInfinity => true
  | Finite p, Finite q => negb (Qle_bool p q)
  end.

(** The literals [-1] and [0], and a whole number as a [number]. *)
Definition minus_one : number := Finite (inject_Z (-1)).
Definition zero : number := Finite (inject_Z 0).
Definition whole (n : Z) : number := Finite (inject_Z n).

(** ** The accumulator: [PerfCounter] *)

Module PerfCounter.

(** The class [PerfCounter] is a collaborator whose body is not part of
    this unit.  The instrumentation only calls four of its methods; the
    state of a counter is represented by the history of the calls made on
    it since [new PerfCounter()], oldest call first. *)
Inductive Call : Type :=
| fetchNewFrame
| addCount (newCount : number) (fetchResult : bool)
| beginMonitoring
| endMonitoring.

Definition t : Type := list Call.

(** [new PerfCounter()] *)
Definition create : t := [].

(** [counter.m(...)] *)
Definition invoke (c : Call) (counter : t) : t := counter ++ [c].

(** Modelled from the spec: the read surface of the accumulator (current,
    average, total, count), whose implementation is missing.  Reading does
    not change the counter; what is read is some function of the
    counter's state. *)
Record Readers : Type := {
  current : t -> number;
  average : t -> number;
  total : t -> number;
  count : t -> number
}.

End PerfCounter.

(** ** The engine's event mechanism: [Observable] and [Observer] *)

(** The four closures the class passes to [Observable.add].  Each closes
    over [this] only, so a closure is represented by its name; its body is
    given by [run_callback] below. *)
Inductive Callback : Type :=
| beginFrameCallback                (* lines 57-61 *)
| endFrameCallback                  (* lines 63-74 *)
| beforeShaderCompilationCallback   (* lines 134-137 *)
| afterShaderCompilationCallback.   (* lines 139-141 *)

(** An [Observer] is an object; [observerId] is its identity. *)
Record Observer : Type := {
  observerId : nat;
  callback : Callback
}.

Definition same_observer (a b : Observer) : bool :=
  Nat.eqb (observerId a) (observerId b).

Definition Observable : Type := list Observer.

(** Modelled from the spec: [Observable.add], missing from the sources:
    "register(callback) -> handle".  The new observer goes to the end of
    the list of observers. *)
Definition Observable_add (o : Observer) (obs : Observable) : Observable :=
  obs ++ [o].

(** Modelled from the spec: [Observable.remove], missing from the sources:
    "unregister(handle) -> void (idempotent/safe on already-removed
    handles)".  The first entry that is the same object is taken out; a
    [null] handle or a handle that is not registered changes nothing. *)
Fixpoint remove_observer (o : Observer) (obs : Observable) : Observable :=
  match obs with
  | [] => []
  | x :: rest => if same_observer o x then rest else x :: remove_observer o rest
  end.

Definition Observable_remove (h : Nullable Observer) (obs : Observable)
  : Observable :=
  match h with
  | None => obs
  | Some o => remove_observer o obs
  end.

(** ** The engine *)

(** A GPU timing query token ([_TimeToken]), an opaque object. *)
Definition _TimeToken : Type := nat.

(** What the GPU would answer for each token if it were asked now. *)
Definition GpuAnswers : Type := _TimeToken -> number.

(** The four observables of the engine that the class subscribes to. *)
Inductive EngineEvent : Type :=
| onBeginFrame
| onEndFrame
| onBeforeShaderCompilation
| onAfterShaderCompilation.

(** The part of [Engine] the class uses.  [observersCreated] allocates the
    identities of observers, [timeQueriesStarted] counts the calls of
    [startTimeQuery] (and names the tokens), and [timeQueryResult] is what
    the GPU would answer to [endTimeQuery] at this moment: by convention
    [-1] while the result is not ready and the elapsed nanoseconds
    otherwise, but any number may come back. *)
Record Engine : Type := {
  onBeginFrameObservable : Observable;
  onEndFrameObservable : Observable;
  onBeforeShaderCompilationObservable : Observable;
  onAfterShaderCompilationObservable : Observable;
  observersCreated : nat;
  timeQueriesStarted : nat;
  timeQueryResult : GpuAnswers
}.

Definition observable (ev : EngineEvent) (e : Engine) : Observable :=
  match ev with
  | onBeginFrame => onBeginFrameObservable e
  | onEndFrame => onEndFrameObservable e
  | onBeforeShaderCompilation => onBeforeShaderCompilationObservable e
  | onAfterShaderCompilation => onAfterShaderCompilationObservable e
  end.

Definition set_observable (ev : EngineEvent) (obs : Observable) (e : Engine)
  : Engine :=
  {| onBeginFrameObservable :=
       match ev with onBeginFrame => obs | _ => onBeginFrameObservable e end;
     onEndFrameObservable :=
       match ev with onEndFrame => obs | _ => onEndFrameObservable e end;
     onBeforeShaderCompilationObservable :=
       match ev with
       | onBeforeShaderCompilation => obs
       | _ => onBeforeShaderCompilationObservable e
       end;
     onAfterShaderCompilationObservable :=
       match ev with
       | onAfterShaderCompilation => obs
       | _ => onAfterShaderCompilationObservable e
       end;
     observersCreated := observersCreated e;
     timeQueriesStarted := timeQueriesStarted e;
     timeQueryResult := timeQueryResult e |}.

(** [engine.onXObservable.add(cb)]: a new observer object is created,
    registered and returned. *)
Definition Engine_add (ev : EngineEvent) (cb : Callback) (e : Engine)
  : Observer * Engine :=
  let o := {| observerId := observersCreated e; callback := cb |} in
  let e' := set_observable ev (Observable_add o (observable ev e)) e in
  (o,
   {| onBeginFrameObservable := onBeginFrameObservable e';
      onEndFrameObservable := onEndFrameObservable e';
      onBeforeShaderCompilationObservable :=
        onBeforeShaderCompilationObservable e';
      onAfterShaderCompilationObservable :=
        onAfterShaderCompilationObservable e';
      observersCreated := S (observersCreated e);
      timeQueriesStarted := timeQueriesStarted e;
      timeQueryResult := timeQueryResult e |}).

(** [engine.onXObservable.remove(h)] *)
Definition Engine_remove (ev : EngineEvent) (h : Nullable Observer) (e : Engine)
  : unit * Engine :=
  (tt, set_observable ev (Observable_remove h (observable ev e)) e).

(** Modelled from the spec: [engine.startTimeQuery()], missing from the
    sources: "issueTimingQuery() -> token". *)
Definition startTimeQuery (e : Engine) : _TimeToken * Engine :=
  (timeQueriesStarted e,
   {| onBeginFrameObservable := onBeginFrameObservable e;
      onEndFrameObservable := onEndFrameObservable e;
      onBeforeShaderCompilationObservable :=
        onBeforeShaderCompilationObservable e;
      onAfterShaderCompilationObservable :=
        onAfterShaderCompilationObservable e;
      observersCreated := observersCreated e;
      timeQueriesStarted := S (timeQueriesStarted e);
      timeQueryResult := timeQueryResult e |}).

(** Modelled from the spec: [engine.endTimeQuery(token)], missing from the
    sources: "resolveTimingQuery(token) ->
    elapsed-time-or-not-ready-sentinel". *)
Definition endTimeQuery (token : _TimeToken) (e : Engine) : number * Engine :=
  (timeQueryResult e token, e).

(** The GPU makes progress between two events: the answers to pending
    queries change. *)
Definition Engine_gpuProgress (answer : GpuAnswers) (e : Engine) : Engine :=
  {| onBeginFrameObservable := onBeginFrameObservable e;
     onEndFrameObservable := onEndFrameObservable e;
     onBeforeShaderCompilationObservable :=
       onBeforeShaderCompilationObservable e;
     onAfterShaderCompilationObservable :=
       onAfterShaderCompilationObservable e;
     observersCreated := observersCreated e;
     timeQueriesStarted := timeQueriesStarted e;
     timeQueryResult := answer |}.

(** An engine nobody has subscribed to yet. *)
Definition Engine_fresh (answer : GpuAnswers) : Engine :=
  {| onBeginFrameObservable := [];
     onEndFrameObservable := [];
     onBeforeShaderCompilationObservable := [];
     onAfterShaderCompilationObservable := [];
     observersCreated := 0;
     timeQueriesStarted := 0;
     timeQueryResult := answer |}.

(** ** The class [EngineInstrumentation] *)

(** A reference to the engine object; a world holds one engine. *)
Inductive EngineRef : Type := theEngine.

Record EngineInstrumentation : Type := {
  _captureGPUFrameTime : bool;
  _gpuFrameTimeToken : Nullable _TimeToken;
  _gpuFrameTime : PerfCounter.t;
  _captureShaderCompilationTime : bool;
  _shaderCompilationTime : PerfCounter.t;
  _onBeginFrameObserver : Nullable Observer;
  _onEndFrameObserver : Nullable Observer;
  _onBeforeShaderCompilationObserver : Nullable Observer;
  _onAfterShaderCompilationObserver : Nullable Observer;
  engine : Nullable EngineRef
}.

(** The observer slot that belongs to an observable. *)
Definition observer_slot (ev : EngineEvent) (t : EngineInstrumentation)
  : Nullable Observer :=
  match ev with
  | onBeginFrame => _onBeginFrameObserver t
  | onEndFrame => _onEndFrameObserver t
  | onBeforeShaderCompilation => _onBeforeShaderCompilationObserver t
  | onAfterShaderCompilation => _onAfterShaderCompilationObserver t
  end.

(** Field assignments [this.f = v]. *)
Definition set_gpuFrameTimeToken (v : Nullable _TimeToken)
  (t : EngineInstrumentation) : EngineInstrumentation :=
  {| _captureGPUFrameTime := _captureGPUFrameTime t;
     _gpuFrameTimeToken := v;
     _gpuFrameTime := _gpuFrameTime t;
     _captureShaderCompilationTime := _captureShaderCompilationTime t;
     _shaderCompilationTime := _shaderCompilationTime t;
     _onBeginFrameObserver := _onBeginFrameObserver t;
     _onEndFrameObserver := _onEndFrameObserver t;
     _onBeforeShaderCompilationObserver := _onBeforeShaderCompilationObserver t;
     _onAfterShaderCompilationObserver := _onAfterShaderCompilationObserver t;
     engine := engine t |}.

Definition set_gpuFrameTime (v : PerfCounter.t)
  (t : EngineInstrumentation) : EngineInstrumentation :=
  {| _captureGPUFrameTime := _captureGPUFrameTime t;
     _gpuFrameTimeToken := _gpuFrameTimeToken t;
     _gpuFrameTime := v;
     _captureShaderCompilationTime := _captureShaderCompilationTime t;
     _shaderCompilationTime := _shaderCompilationTime t;
     _onBeginFrameObserver := _onBeginFrameObserver t;
     _onEndFrameObserver := _onEndFrameObserver t;
     _onBeforeShaderCompilationObserver := _onBeforeShaderCompilationObserver t;
     _onAfterShaderCompilationObserver := _onAfterShaderCompilationObserver t;
     engine := engine t |}.

Definition set_shaderCompilationTime (v : PerfCounter.t)
  (t : EngineInstrumentation) : EngineInstrumentation :=
  {| _captureGPUFrameTime := _captureGPUFrameTime t;
     _gpuFrameTimeToken := _gpuFrameTimeToken t;
     _gpuFrameTime := _gpuFrameTime t;
     _captureShaderCompilationTime := _captureShaderCompilationTime t;
     _shaderCompilationTime := v;
     _onBeginFrameObserver := _onBeginFrameObserver t;
     _onEndFrameObserver := _onEndFrameObserver t;
     _onBeforeShaderCompilationObserver := _onBeforeShaderCompilationObserver t;
     _onAfterShaderCompilationObserver := _onAfterShaderCompilationObserver t;
     engine := engine t |}.

Definition set_observer_slot (ev : EngineEvent) (v : Nullable Observer)
  (t : EngineInstrumentation) : EngineInstrumentation :=
  {| _captureGPUFrameTime := _captureGPUFrameTime t;
     _gpuFrameTimeToken := _gpuFrameTimeToken t;
     _gpuFrameTime := _gpuFrameTime t;
     _captureShaderCompilationTime := _captureShaderCompilationTime t;
     _shaderCompilationTime := _shaderCompilationTime t;
     _onBeginFrameObserver :=
       match ev with onBeginFrame => v | _ => _onBeginFrameObserver t end;
     _onEndFrameObserver :=
       match ev with onEndFrame => v | _ => _onEndFrameObserver t end;
     _onBeforeShaderCompilationObserver :=
       match ev with
       | onBeforeShaderCompilation => v
       | _ => _onBeforeShaderCompilationObserver t
       end;
     _onAfterShaderCompilationObserver :=
       match ev with
       | onAfterShaderCompilation => v
       | _ => _onAfterShaderCompilationObserver t
       end;
     engine := engine t |}.

Definition set_engine (v : Nullable EngineRef)
  (t : EngineInstrumentation) : EngineInstrumentation :=
  {| _captureGPUFrameTime := _captureGPUFrameTime t;
     _gpuFrameTimeToken := _gpuFrameTimeToken t;
     _gpuFrameTime := _gpuFrameTime t;
     _captureShaderCompilationTime := _captureShaderCompilationTime t;
     _shaderCompilationTime := _shaderCompilationTime t;
     _onBeginFrameObserver := _onBeginFrameObserver t;
     _onEndFrameObserver := _onEndFrameObserver t;
     _onBeforeShaderCompilationObserver := _onBeforeShaderCompilationObserver t;
     _onAfterShaderCompilationObserver := _onAfterShaderCompilationObserver t;
     engine := v |}.

(** ** Worlds and the monad of methods *)

(** The instrumentation object and the engine object it was built for.  The
    engine lives on when the instrumentation drops its reference. *)
Record World : Type := {
  this : EngineInstrumentation;
  heap : Engine
}.

(** How a method or a callback ends: normally with a value, or with a
    [TypeError]; in both cases in some world. *)
Inductive Outcome (A : Type) : Type :=
| Normal (a : A) (w : World)
| TypeError (w : World).

Arguments TypeError {A} w.

Definition final {A : Type} (o : Outcome A) : World :=
  match o with Normal _ w => w | TypeError w => w end.

Definition M (A : Type) : Type := World -> Outcome A.

Definition ret {A : Type} (a : A) : M A := fun w => Normal a w.

Definition bind {A B : Type} (m : M A) (k : A -> M B) : M B :=
  fun w => match m w with
           | Normal a w' => k a w'
           | TypeError w' => TypeError w'
           end.

Declare Scope js_scope.
Delimit Scope js_scope with js.
Notation "x <- m ;; k" := (bind m (fun x => k))
  (at level 61, m at next level, right associativity) : js_scope.
Notation "m ;; k" := (bind m (fun _ => k))
  (at level 61, right associativity) : js_scope.
Open Scope js_scope.

(** [this.f] *)
Definition read {A : Type} (f : EngineInstrumentation -> A) : M A :=
  fun w => Normal (f (this w)) w.

(** [this.f = v] *)
Definition assign (upd : EngineInstrumentation -> EngineInstrumentation)
  : M unit :=
  fun w => Normal tt {| this := upd (this w); heap := heap w |}.

(** [this.engine.m(...)]: throws when [this.engine] is [null]. *)
Definition this_engine {A : Type} (m : Engine -> A * Engine) : M A :=
  fun w => match engine (this w) with
           | None => TypeError w
           | Some theEngine =>
               let (a, e') := m (heap w) in
               Normal a {| this := this w; heap := e' |}
           end.

(** [this._gpuFrameTime.m(...)] and [this._shaderCompilationTime.m(...)] *)
Definition gpuFrameTime_call (c : PerfCounter.Call) : M unit :=
  assign (fun t => set_gpuFrameTime (PerfCounter.invoke c (_gpuFrameTime t)) t).

Definition shaderCompilationTime_call (c : PerfCounter.Call) : M unit :=
  assign (fun t =>
    set_shaderCompilationTime
      (PerfCounter.invoke c (_shaderCompilationTime t)) t).

(** *** The callbacks *)

(** Lines 57-61. *)
Definition on_beginFrame : M unit :=
  token <- read _gpuFrameTimeToken ;;
  if negb (truthy token) then
    token' <- this_engine startTimeQuery ;;
    assign (set_gpuFrameTimeToken (Some token'))
  else ret tt.

(** Lines 63-74. *)
Definition on_endFrame : M unit :=
  token <- read _gpuFrameTimeToken ;;
  match token with
  | None => ret tt
  | Some tk =>
      time <- this_engine (endTimeQuery tk) ;;
      if number_gt time minus_one then
        assign (set_gpuFrameTimeToken None) ;;
        gpuFrameTime_call PerfCounter.fetchNewFrame ;;
        gpuFrameTime_call (PerfCounter.addCount time true)
      else ret tt
  end.

(** Lines 134-137. *)
Definition on_beforeShaderCompilation : M unit :=
  shaderCompilationTime_call PerfCounter.fetchNewFrame ;;
  shaderCompilationTime_call PerfCounter.beginMonitoring.

(** Lines 139-141. *)
Definition on_afterShaderCompilation : M unit :=
  shaderCompilationTime_call PerfCounter.endMonitoring.

Definition run_callback (cb : Callback) : M unit :=
  match cb with
  | beginFrameCallback => on_beginFrame
  | endFrameCallback => on_endFrame
  | beforeShaderCompilationCallback => on_beforeShaderCompilation
  | afterShaderCompilationCallback => on_afterShaderCompilation
  end.

(** *** The toggles *)

(** [get captureGPUFrameTime], lines 44-46. *)
Definition get_captureGPUFrameTime : M bool := read _captureGPUFrameTime.

(** [set captureGPUFrameTime], lines 51-81. *)
Definition set_captureGPUFrameTime (value : bool) : M unit :=
  cur <- read _captureGPUFrameTime ;;
  if Bool.eqb value cur then ret tt
  else if value then
    o <- this_engine (Engine_add onBeginFrame beginFrameCallback) ;;
    assign (set_observer_slot onBeginFrame (Some o)) ;;
    o <- this_engine (Engine_add onEndFrame endFrameCallback) ;;
    assign (set_observer_slot onEndFrame (Some o))
  else
    h <- read _onBeginFrameObserver ;;
    this_engine (Engine_remove onBeginFrame h) ;;
    assign (set_observer_slot onBeginFrame None) ;;
    h <- read _onEndFrameObserver ;;
    this_engine (Engine_remove onEndFrame h) ;;
    assign (set_observer_slot onEndFrame None).

(** [get captureShaderCompilationTime], lines 121-123. *)
Definition get_captureShaderCompilationTime : M bool :=
  read _captureShaderCompilationTime.

(** [set captureShaderCompilationTime], lines 128-148. *)
Definition set_captureShaderCompilationTime (value : bool) : M unit :=
  cur <- read _captureShaderCompilationTime ;;
  if Bool.eqb value cur then ret tt
  else if value then
    o <- this_engine
           (Engine_add onBeforeShaderCompilation
              beforeShaderCompilationCallback) ;;
    assign (set_observer_slot onBeforeShaderCompilation (Some o)) ;;
    o <- this_engine
           (Engine_add onAfterShaderCompilation
              afterShaderCompilationCallback) ;;
    assign (set_observer_slot onAfterShaderCompilation (Some o))
  else
    h <- read _onBeforeShaderCompilationObserver ;;
    this_engine (Engine_remove onBeforeShaderCompilation h) ;;
    assign (set_observer_slot onBeforeShaderCompilation None) ;;
    h <- read _onAfterShaderCompilationObserver ;;
    this_engine (Engine_remove onAfterShaderCompilation h) ;;
    assign (set_observer_slot onAfterShaderCompilation None).

(** *** Constructor and [dispose] *)

(** [new EngineInstrumentation(engine)], lines 6-17 and 150-152. *)
Definition constructor (e : Engine) : World :=
  {| this :=
       {| _captureGPUFrameTime := false;
          _gpuFrameTimeToken := None;
          _gpuFrameTime := PerfCounter.create;
          _captureShaderCompilationTime := false;
          _shaderCompilationTime := PerfCounter.create;
          _onBeginFrameObserver := None;
          _onEndFrameObserver := None;
          _onBeforeShaderCompilationObserver := None;
          _onAfterShaderCompilationObserver := None;
          engine := Some theEngine |};
     heap := e |}.

(** One guarded block of [dispose]:
    [if (this.h) { this.engine.onX.remove(this.h); this.h = null; }] *)
Definition dispose_slot (ev : EngineEvent) : M unit :=
  h <- read (observer_slot ev) ;;
  if truthy h then
    this_engine (Engine_remove ev h) ;;
    assign (set_observer_slot ev None)
  else ret tt.

(** [dispose()], lines 154-176. *)
Definition dispose : M unit :=
  dispose_slot onBeginFrame ;;
  dispose_slot onEndFrame ;;
  dispose_slot onBeforeShaderCompilation ;;
  dispose_slot onAfterShaderCompilation ;;
  assign (set_engine None).

(** *** The read accessors *)

Section Accessors.

Variable perf : PerfCounter.Readers.

(** Lines 30-39. *)
Definition get_currentGPUFrameTime : M number :=
  c <- read _gpuFrameTime ;; ret (PerfCounter.current perf c).

Definition get_averageGPUFrameTime : M number :=
  c <- read _gpuFrameTime ;; ret (PerfCounter.average perf c).

(** Lines 93-116. *)
Definition get_currentShaderCompilationTime : M number :=
  c <- read _shaderCompilationTime ;; ret (PerfCounter.current perf c).

Definition get_averageShaderCompilationTime : M number :=
  c <- read _shaderCompilationTime ;; ret (PerfCounter.average perf c).

Definition get_totalShaderCompilationTime : M number :=
  c <- read _shaderCompilationTime ;; ret (PerfCounter.total perf c).

Definition get_compiledShadersCount : M number :=
  c <- read _shaderCompilationTime ;; ret (PerfCounter.count perf c).

End Accessors.

(** ** The engine fires its events *)

(** Modelled from the spec: [Observable.notifyObservers], missing from the
    sources: "all callbacks execute synchronously on the calling thread
    when the engine's event mechanism notifies them", in the order of
    registration. *)
Fixpoint notifyObservers (obs : list Observer) : M unit :=
  match obs with
  | [] => ret tt
  | o :: rest => run_callback (callback o) ;; notifyObservers rest
  end.

Definition fire (ev : EngineEvent) : M unit :=
  fun w => notifyObservers (observable ev (heap w)) w.

(** ** Histories: what the application and the engine may do *)

Inductive Action : Type :=
| CaptureGPUFrameTime (value : bool)
| CaptureShaderCompilationTime (value : bool)
| Dispose
| Fire (ev : EngineEvent)
| GpuProgress (answer : GpuAnswers).

Definition step (a : Action) : M unit :=
  match a with
  | CaptureGPUFrameTime value => set_captureGPUFrameTime value
  | CaptureShaderCompilationTime value => set_captureShaderCompilationTime value
  | Dispose => dispose
  | Fire ev => fire ev
  | GpuProgress answer =>
      fun w => Normal tt {| this := this w;
                            heap := Engine_gpuProgress answer (heap w) |}
  end.

(** The world after a history, oldest action first; an exception ends the
    action that threw it, not the history. *)
Fixpoint run (actions : list Action) (w : World) : World :=
  match actions with
  | [] => w
  | a :: rest => run rest (final (step a w))
  end.

(** Worlds reached from a newly built instrumentation of a fresh engine. *)
Inductive reachable : World -> Prop :=
| reachable_new : forall answer,
    reachable (constructor (Engine_fresh answer))
| reachable_step : forall a w,
    reachable w -> reachable (final (step a w)).


(** * Notions used by the statements *)

(** ** The two capture toggles, side by side *)

Inductive Toggle : Type := GPUFrameTime | ShaderCompilationTime.

(** The write accessor and the read accessor of a toggle. *)
Definition setter (tg : Toggle) (value : bool) : Action :=
  match tg with
  | GPUFrameTime => CaptureGPUFrameTime value
  | ShaderCompilationTime => CaptureShaderCompilationTime value
  end.

Definition getter (tg : Toggle) : M bool :=
  match tg with
  | GPUFrameTime => get_captureGPUFrameTime
  | ShaderCompilationTime => get_captureShaderCompilationTime
  end.

(** The two observables a toggle subscribes to, and the accumulator it
    feeds. *)
Definition first_event (tg : Toggle) : EngineEvent :=
  match tg with
  | GPUFrameTime => onBeginFrame
  | ShaderCompilationTime => onBeforeShaderCompilation
  end.

Definition second_event (tg : Toggle) : EngineEvent :=
  match tg with
  | GPUFrameTime => onEndFrame
  | ShaderCompilationTime => onAfterShaderCompilation
  end.

Definition accumulator (tg : Toggle) (t : EngineInstrumentation)
  : PerfCounter.t :=
  match tg with
  | GPUFrameTime => _gpuFrameTime t
  | ShaderCompilationTime => _shaderCompilationTime t
  end.

(** What a read accessor returns ([false] stands for an accessor that
    throws; none does). *)
Definition reads (g : M bool) (w : World) : bool :=
  match g w with Normal b _ => b | TypeError _ => false end.

(** Both handles of a toggle are non-null. *)
Definition handles_set (tg : Toggle) (w : World) : bool :=
  truthy (observer_slot (first_event tg) (this w))
  && truthy (observer_slot (second_event tg) (this w)).

(** The invariant of the data model: registered iff the toggle reads
    [true]. *)
Definition in_sync (tg : Toggle) (w : World) : Prop :=
  handles_set tg w = true <-> reads (getter tg) w = true.

(** How many callbacks the engine holds for an event. *)
Definition subscriptions (ev : EngineEvent) (w : World) : nat :=
  length (observable ev (heap w)).

(** ** The wiring: what no callback touches *)

(** The toggles, the observer slots, the engine reference, and on the
    engine's side the observers and the allocator of their identities. *)
Definition wiring (w : World) :=
  (_captureGPUFrameTime (this w), _captureShaderCompilationTime (this w),
   (_onBeginFrameObserver (this w), _onEndFrameObserver (this w),
    _onBeforeShaderCompilationObserver (this w),
    _onAfterShaderCompilationObserver (this w)),
   engine (this w),
   (onBeginFrameObservable (heap w), onEndFrameObservable (heap w),
    onBeforeShaderCompilationObservable (heap w),
    onAfterShaderCompilationObservable (heap w)),
   observersCreated (heap w)).

(** The closure the class registers with each observable. *)
Definition callback_of (ev : EngineEvent) : Callback :=
  match ev with
  | onBeginFrame => beginFrameCallback
  | onEndFrame => endFrameCallback
  | onBeforeShaderCompilation => beforeShaderCompilationCallback
  | onAfterShaderCompilation => afterShaderCompilationCallback
  end.

(** The observers of an engine: each observable holds only the closure
    meant for it, and observers are distinct objects that the engine has
    created. *)
Record Engine_ok (e : Engine) : Prop := {
  own_callbacks : forall ev o,
    In o (observable ev e) -> callback o = callback_of ev;
  ids_allocated : forall ev o,
    In o (observable ev e) -> observerId o < observersCreated e;
  ids_distinct : forall ev, NoDup (map observerId (observable ev e))
}.

(** What holds in every reachable world. *)
Record consistent (w : World) : Prop := {
  toggles_off :
    _captureGPUFrameTime (this w) = false
    /\ _captureShaderCompilationTime (this w) = false;
  engine_ok : Engine_ok (heap w);
  unbound_no_handles :
    engine (this w) = None -> forall ev, observer_slot ev (this w) = None
}.

(** ** Worlds used as examples *)

(** A GPU that never has a result ready, and one that always reports the
    same elapsed time. *)
Definition not_ready : GpuAnswers := fun _ => minus_one.
Definition ready_after (ns : Z) : GpuAnswers := fun _ => whole ns.

Definition new_world : World := constructor (Engine_fresh not_ready).

(** ** The world [dispose] leaves behind *)

(** One observer slot cleared and its observer taken out of the engine. *)
Definition unregistered (ev : EngineEvent) (w : World) : World :=
  {| this := set_observer_slot ev None (this w);
     heap := snd (Engine_remove ev (observer_slot ev (this w)) (heap w)) |}.

Definition disposed (w : World) : World :=
  let w' :=
    unregistered onAfterShaderCompilation
      (unregistered onBeforeShaderCompilation
         (unregistered onEndFrame (unregistered onBeginFrame w))) in
  {| this := set_engine None (this w'); heap := heap w' |}.

(** A history of calls of the two write accessors. *)
Definition setter_calls (calls : list (Toggle * bool)) : list Action :=
  map (fun c => setter (fst c) (snd c)) calls.

(** GPU capture switched on, one frame begun, and the GPU done with it
    after 5000000 ns. *)
Definition frame_in_flight : World :=
  run [CaptureGPUFrameTime true; Fire onBeginFrame;
       GpuProgress (ready_after 5000000)] new_world.

(** The same frame, answered with [-0.5]. *)
Definition frame_half_negative : World :=
  run [CaptureGPUFrameTime true; Fire onBeginFrame;
       GpuProgress (fun _ => Finite (-1 # 2))] new_world.

(** [a >= b] *)
Definition number_ge (a b : number) : bool :=
  match a, b with
  | NaN, _ | _, NaN => false
  | _, _ => negb (number_gt b a)
  end.

(** The end-frame callback as claimed: a sample is recorded exactly when a
    token is outstanding and the answer is non-negative, and a negative
    answer leaves everything as it is. *)
Definition samples_iff_non_negative (w : World) : Prop :=
  let w' := final (on_endFrame w) in
  (_gpuFrameTime (this w') <> _gpuFrameTime (this w)
   <-> exists tk, _gpuFrameTimeToken (this w) = Some tk
                  /\ number_ge (timeQueryResult (heap w) tk) zero = true)
  /\ (forall tk, _gpuFrameTimeToken (this w) = Some tk ->
        number_gt zero (timeQueryResult (heap w) tk) = true -> w' = w).


(** ** Notions for the properties of whole histories *)

(** The two calls that record one GPU frame time. *)
Definition sample (time : number) : list PerfCounter.Call :=
  [PerfCounter.fetchNewFrame; PerfCounter.addCount time true].

(** The calls that open, and that close, one monitored compilation. *)
Definition monitoring_start : list PerfCounter.Call :=
  [PerfCounter.fetchNewFrame; PerfCounter.beginMonitoring].

Definition monitoring_end : list PerfCounter.Call :=
  [PerfCounter.endMonitoring].

(** The same calls once for each observer notified. *)
Definition for_each_observer (calls : list PerfCounter.Call)
  (obs : list Observer) : list PerfCounter.Call :=
  flat_map (fun _ => calls) obs.

(** The calls of one shader compilation callback: the before-compilation
    one ([true]) or the after-compilation one ([false]). *)
Definition monitoring (opening : bool) : list PerfCounter.Call :=
  if opening then monitoring_start else monitoring_end.


(** What the setters and [dispose] leave alone: the token, the two
    accumulators and the number of timing queries started. *)
Definition measurements (w : World) :=
  (_gpuFrameTimeToken (this w), _gpuFrameTime (this w),
   _shaderCompilationTime (this w), timeQueriesStarted (heap w)).


(** A handle that is held is the newest observer of its observable. *)
Definition handles_registered (w : World) : Prop :=
  forall ev h, observer_slot ev (this w) = Some h ->
    exists earlier, observable ev (heap w) = earlier ++ [h].

(** The events of a toggle. *)
Definition event_of (tg : Toggle) (ev : EngineEvent) : bool :=
  match tg, ev with
  | GPUFrameTime, (onBeginFrame | onEndFrame) => true
  | ShaderCompilationTime,
    (onBeforeShaderCompilation | onAfterShaderCompilation) => true
  | _, _ => false
  end.

(** The world the branch [if (value)] of a setter leaves behind. *)
Definition enabled (tg : Toggle) (w : World) : World :=
  let r1 :=
    Engine_add (first_event tg) (callback_of (first_event tg)) (heap w) in
  let r2 :=
    Engine_add (second_event tg) (callback_of (second_event tg)) (snd r1) in
  {| this := set_observer_slot (second_event tg) (Some (fst r2))
               (set_observer_slot (first_event tg) (Some (fst r1)) (this w));
     heap := snd r2 |}.

(** The world after a GPU frame time has been sampled. *)
Definition sampled (time : number) (w : World) : World :=
  {| this := set_gpuFrameTime (_gpuFrameTime (this w) ++ sample time)
               (set_gpuFrameTimeToken None (this w));
     heap := heap w |}.

(** The world after a timing query has been started. *)
Definition querying (w : World) : World :=
  {| this := set_gpuFrameTimeToken (Some (timeQueriesStarted (heap w)))
               (this w);
     heap := snd (startTimeQuery (heap w)) |}.

(** The world after calls on the compilation-time accumulator. *)
Definition monitored (calls : list PerfCounter.Call) (w : World) : World :=
  {| this := set_shaderCompilationTime
               (_shaderCompilationTime (this w) ++ calls) (this w);
     heap := heap w |}.

(** GPU capture switched on, and a GPU that answers at once. *)
Definition gpu_watched : World :=
  run [CaptureGPUFrameTime true; GpuProgress (ready_after 7)] new_world.

(** GPU capture switched on twice, then the instrumentation disposed of:
    once at rest, once with a frame in flight. *)
Definition disposed_with_leak : World :=
  run [CaptureGPUFrameTime true; CaptureGPUFrameTime true; Dispose] new_world.

Definition disposed_in_flight : World :=
  run [CaptureGPUFrameTime true; CaptureGPUFrameTime true;
       Fire onBeginFrame; Dispose] new_world.

(** Both captures switched on, shader compilation twice. *)
Definition all_watched : World :=
  run [CaptureGPUFrameTime true; CaptureShaderCompilationTime true;
       CaptureShaderCompilationTime true] new_world.


(** GPU capture switched on twice, one frame begun, answered with
    [-0.5]. *)
Definition twice_watched_in_flight : World :=
  run [CaptureGPUFrameTime true; CaptureGPUFrameTime true;
       Fire onBeginFrame; GpuProgress (fun _ => Finite (-1 # 2))] new_world.

(** * Properties *)

Ltac destruct_world w :=
  let t := fresh "t" in
  let e := fresh "e" in
  destruct w as [t e]; destruct t; destruct e; cbn in *.

Ltac run_js :=
  cbv [on_beginFrame on_endFrame on_beforeShaderCompilation
       on_afterShaderCompilation gpuFrameTime_call shaderCompilationTime_call
       set_captureGPUFrameTime set_captureShaderCompilationTime
       get_captureGPUFrameTime get_captureShaderCompilationTime
       dispose dispose_slot bind ret read assign this_engine
       startTimeQuery endTimeQuery Engine_add Engine_remove final];
  cbn.

(** ** Callbacks and events leave the wiring alone *)

Lemma wiring_slot (w w' : World) (ev : EngineEvent) :
  wiring w = wiring w' ->
  observer_slot ev (this w) = observer_slot ev (this w').
Proof.
  unfold wiring; intros H; injection H as; destruct ev; cbn; assumption.
Qed.

Lemma wiring_observable (w w' : World) (ev : EngineEvent) :
  wiring w = wiring w' ->
  observable ev (heap w) = observable ev (heap w').
Proof.
  unfold wiring; intros H; injection H as; destruct ev; cbn; assumption.
Qed.

Lemma wiring_engine (w w' : World) :
  wiring w = wiring w' -> engine (this w) = engine (this w').
Proof. unfold wiring; intros H; injection H as; assumption. Qed.

Lemma wiring_created (w w' : World) :
  wiring w = wiring w' ->
  observersCreated (heap w) = observersCreated (heap w').
Proof. unfold wiring; intros H; injection H as; assumption. Qed.

Lemma wiring_toggles (w w' : World) :
  wiring w = wiring w' ->
  _captureGPUFrameTime (this w) = _captureGPUFrameTime (this w')
  /\ _captureShaderCompilationTime (this w)
     = _captureShaderCompilationTime (this w').
Proof. unfold wiring; intros H; injection H as; split; assumption. Qed.

Lemma on_beginFrame_wiring (w : World) :
  wiring (final (on_beginFrame w)) = wiring w.
Proof.
  destruct_world w.
  destruct _gpuFrameTimeToken0, engine0 as [[]|]; reflexivity.
Qed.

Lemma on_endFrame_wiring (w : World) :
  wiring (final (on_endFrame w)) = wiring w.
Proof.
  destruct w as [t e]; destruct t.
  unfold on_endFrame, bind, read, this_engine. cbn -[number_gt minus_one].
  destruct _gpuFrameTimeToken0 as [tk|], engine0 as [[]|]; try reflexivity.
  cbn -[number_gt minus_one].
  destruct (number_gt (timeQueryResult e tk) minus_one); reflexivity.
Qed.

Lemma run_callback_wiring (cb : Callback) (w : World) :
  wiring (final (run_callback cb w)) = wiring w.
Proof.
  destruct cb; cbn [run_callback].
  - apply on_beginFrame_wiring.
  - apply on_endFrame_wiring.
  - reflexivity.
  - reflexivity.
Qed.

Lemma notifyObservers_wiring (obs : list Observer) (w : World) :
  wiring (final (notifyObservers obs w)) = wiring w.
Proof.
  revert w; induction obs as [|o rest IH]; intros w; [reflexivity|].
  cbn [notifyObservers]. unfold bind.
  pose proof (run_callback_wiring (callback o) w) as Hcb.
  destruct (run_callback (callback o) w) as [[] w1|w1]; cbn in Hcb.
  - rewrite IH. exact Hcb.
  - exact Hcb.
Qed.

Lemma fire_wiring (ev : EngineEvent) (w : World) :
  wiring (final (fire ev w)) = wiring w.
Proof. apply notifyObservers_wiring. Qed.

Lemma consistent_wiring (w w' : World) :
  wiring w = wiring w' -> consistent w -> consistent w'.
Proof.
  intros Hw [[Hg Hs] [Hcb Hid Hnd] Hun].
  destruct (wiring_toggles Hw) as [Hg' Hs'].
  split; [split; congruence | split |].
  - intros ev o; rewrite <- (wiring_observable ev Hw); apply Hcb.
  - intros ev o; rewrite <- (wiring_observable ev Hw),
      <- (wiring_created Hw); apply Hid.
  - intros ev; rewrite <- (wiring_observable ev Hw); apply Hnd.
  - intros Hn ev. rewrite <- (wiring_slot ev Hw). apply Hun.
    rewrite (wiring_engine Hw). exact Hn.
Qed.

(** ** Registering and unregistering observers *)

Lemma remove_observer_incl (o x : Observer) (obs : Observable) :
  In x (remove_observer o obs) -> In x obs.
Proof.
  induction obs as [|y rest IH]; cbn; [tauto|].
  destruct (same_observer o y); cbn; tauto.
Qed.

Lemma remove_observer_ids_incl (o : Observer) (obs : Observable) (n : nat) :
  In n (map observerId (remove_observer o obs)) ->
  In n (map observerId obs).
Proof.
  rewrite !in_map_iff. intros (x & Hx & Hin).
  exists x; split; [assumption|]. eapply remove_observer_incl; eassumption.
Qed.

Lemma remove_observer_NoDup (o : Observer) (obs : Observable) :
  NoDup (map observerId obs) ->
  NoDup (map observerId (remove_observer o obs)).
Proof.
  induction obs as [|y rest IH]; cbn; [trivial|].
  intros Hnd; inversion Hnd as [|? ? Hnotin Hrest]; subst.
  destruct (same_observer o y); cbn; [assumption|].
  constructor; [|auto].
  intros Hin; apply Hnotin. eapply remove_observer_ids_incl; eassumption.
Qed.

(** Once removed, an observer is no longer registered. *)
Lemma remove_observer_gone (o : Observer) (obs : Observable) :
  NoDup (map observerId obs) ->
  ~ In (observerId o) (map observerId (remove_observer o obs)).
Proof.
  induction obs as [|y rest IH]; cbn; [tauto|].
  intros Hnd; inversion Hnd as [|? ? Hnotin Hrest]; subst.
  unfold same_observer at 1.
  destruct (Nat.eqb_spec (observerId o) (observerId y)) as [Heq|Hne].
  - rewrite Heq. exact Hnotin.
  - cbn. intros [Hy|Hin]; [congruence|]. exact (IH Hrest Hin).
Qed.

Lemma Observable_remove_incl (h : Nullable Observer) (x : Observer)
  (obs : Observable) :
  In x (Observable_remove h obs) -> In x obs.
Proof. destruct h; cbn; [apply remove_observer_incl | trivial]. Qed.

Lemma Observable_remove_NoDup (h : Nullable Observer) (obs : Observable) :
  NoDup (map observerId obs) ->
  NoDup (map observerId (Observable_remove h obs)).
Proof. destruct h; cbn; [apply remove_observer_NoDup | trivial]. Qed.

Lemma observable_set_observable (ev ev' : EngineEvent) (obs : Observable)
  (e : Engine) :
  observable ev (set_observable ev' obs e) = obs
  \/ observable ev (set_observable ev' obs e) = observable ev e.
Proof. destruct ev, ev'; cbn; auto. Qed.

Lemma observable_Engine_remove (ev ev' : EngineEvent) (h : Nullable Observer)
  (e : Engine) :
  (ev = ev'
   /\ observable ev (snd (Engine_remove ev' h e))
      = Observable_remove h (observable ev e))
  \/ (ev <> ev'
      /\ observable ev (snd (Engine_remove ev' h e)) = observable ev e).
Proof. destruct ev, ev'; cbn; auto; right; split; congruence. Qed.

Lemma observable_Engine_add (ev ev' : EngineEvent) (cb : Callback)
  (e : Engine) :
  (ev = ev'
   /\ observable ev (snd (Engine_add ev' cb e))
      = observable ev e ++ [fst (Engine_add ev' cb e)])
  \/ (ev <> ev'
      /\ observable ev (snd (Engine_add ev' cb e)) = observable ev e).
Proof. destruct ev, ev'; cbn; auto; right; split; congruence. Qed.

Lemma Engine_remove_ok (ev : EngineEvent) (h : Nullable Observer) (e : Engine) :
  Engine_ok e -> Engine_ok (snd (Engine_remove ev h e)).
Proof.
  intros [Hcb Hid Hnd]. split.
  - intros ev0 o.
    destruct (observable_Engine_remove ev0 ev h e) as [[-> ->]|[_ ->]];
      [intros Hin; apply Hcb; eapply Observable_remove_incl; eassumption
      | apply Hcb].
  - intros ev0 o.
    change (observersCreated (snd (Engine_remove ev h e)))
      with (observersCreated e).
    destruct (observable_Engine_remove ev0 ev h e) as [[-> ->]|[_ ->]];
      [intros Hin; apply (Hid ev); eapply Observable_remove_incl; eassumption
      | apply Hid].
  - intros ev0.
    destruct (observable_Engine_remove ev0 ev h e) as [[-> ->]|[_ ->]];
      [apply Observable_remove_NoDup|]; apply Hnd.
Qed.

Lemma Engine_add_ok (ev : EngineEvent) (e : Engine) :
  Engine_ok e -> Engine_ok (snd (Engine_add ev (callback_of ev) e)).
Proof.
  intros [Hcb Hid Hnd]. split.
  - intros ev0 o.
    destruct (observable_Engine_add ev0 ev (callback_of ev) e)
      as [[-> ->]|[_ ->]]; [|apply Hcb].
    rewrite in_app_iff. intros [Hin|[<-|[]]]; [auto | reflexivity].
  - intros ev0 o.
    change (observersCreated (snd (Engine_add ev (callback_of ev) e)))
      with (S (observersCreated e)).
    destruct (observable_Engine_add ev0 ev (callback_of ev) e)
      as [[-> ->]|[_ ->]].
    + rewrite in_app_iff. intros [Hin|[<-|[]]]; [|cbn; lia].
      specialize (Hid _ _ Hin). lia.
    + intros Hin. specialize (Hid _ _ Hin). lia.
  - intros ev0.
    destruct (observable_Engine_add ev0 ev (callback_of ev) e)
      as [[-> ->]|[_ ->]]; [|apply Hnd].
    rewrite map_app. cbn.
    apply NoDup_app; [apply Hnd | repeat constructor; cbn; tauto |].
    intros n Hin [<-|[]].
    apply in_map_iff in Hin as (o & Ho & Hin).
    specialize (Hid _ _ Hin). lia.
Qed.

(** ** What a setter does, branch by branch *)

(** The guard [value === this._capture...]: nothing happens. *)
Lemma setter_same_value (tg : Toggle) (value : bool) (w : World) :
  reads (getter tg) w = value ->
  step (setter tg value) w = Normal tt w.
Proof.
  destruct tg; cbn; unfold reads; run_js; intros ->;
    rewrite Bool.eqb_reflx; reflexivity.
Qed.

(** The branch [if (value)]: two observers are created and registered, and
    the two slots of the toggle are overwritten with them. *)
Lemma setter_enable (tg : Toggle) (w : World) :
  reads (getter tg) w = false ->
  engine (this w) = Some theEngine ->
  let r1 := Engine_add (first_event tg) (callback_of (first_event tg)) (heap w) in
  let r2 := Engine_add (second_event tg) (callback_of (second_event tg)) (snd r1) in
  step (setter tg true) w
  = Normal tt
      {| this := set_observer_slot (second_event tg) (Some (fst r2))
                   (set_observer_slot (first_event tg) (Some (fst r1)) (this w));
         heap := snd r2 |}.
Proof.
  destruct tg; unfold reads; destruct_world w; intros -> ->; reflexivity.
Qed.

(** Without an engine the branch [if (value)] throws at once. *)
Lemma setter_enable_unbound (tg : Toggle) (w : World) :
  reads (getter tg) w = false ->
  engine (this w) = None ->
  step (setter tg true) w = TypeError w.
Proof.
  destruct tg; unfold reads; destruct_world w; intros -> ->; reflexivity.
Qed.

(** ** Every reachable world is consistent *)

Lemma toggles_off_reads (tg : Toggle) (w : World) :
  consistent w -> reads (getter tg) w = false.
Proof. intros [[Hg Hs] _ _]; destruct tg; cbn; assumption. Qed.

Lemma setter_consistent (tg : Toggle) (value : bool) (w : World) :
  consistent w -> consistent (final (step (setter tg value) w)).
Proof.
  intros Hc. pose proof (toggles_off_reads tg Hc) as Hoff.
  destruct value.
  - destruct (engine (this w)) as [[]|] eqn:Hb.
    + rewrite (setter_enable tg w Hoff Hb). cbn [final].
      destruct Hc as [[Hg Hs] Hok Hun].
      split; cbn [this heap].
      * destruct tg; cbn; auto.
      * apply Engine_add_ok, Engine_add_ok, Hok.
      * destruct tg; cbn; congruence.
    + rewrite (setter_enable_unbound tg w Hoff Hb). exact Hc.
  - rewrite (setter_same_value tg w Hoff). exact Hc.
Qed.

(** ** [dispose] *)

Lemma dispose_slot_unregistered (ev : EngineEvent) (w : World) :
  (engine (this w) = None -> observer_slot ev (this w) = None) ->
  dispose_slot ev w = Normal tt (unregistered ev w).
Proof.
  intros Hun. unfold dispose_slot, unregistered, bind, read, assign, this_engine.
  destruct ev; destruct_world w;
    match goal with
    | |- context [truthy ?h] => destruct h
    end; cbn; try reflexivity;
    destruct engine0 as [[]|]; try reflexivity;
    specialize (Hun eq_refl); discriminate.
Qed.

Lemma dispose_disposed (w : World) :
  (engine (this w) = None -> forall ev, observer_slot ev (this w) = None) ->
  dispose w = Normal tt (disposed w).
Proof.
  intros Hun. unfold dispose, disposed.
  unfold bind at 1.
  rewrite dispose_slot_unregistered by (intros H; apply Hun, H).
  unfold bind at 1.
  rewrite dispose_slot_unregistered
    by (intros H; destruct_world w; apply (Hun H onEndFrame)).
  unfold bind at 1.
  rewrite dispose_slot_unregistered
    by (intros H; destruct_world w; apply (Hun H onBeforeShaderCompilation)).
  unfold bind at 1.
  rewrite dispose_slot_unregistered
    by (intros H; destruct_world w; apply (Hun H onAfterShaderCompilation)).
  reflexivity.
Qed.

Lemma disposed_slots (w : World) (ev : EngineEvent) :
  observer_slot ev (this (disposed w)) = None.
Proof. destruct ev; reflexivity. Qed.

Lemma disposed_observable (w : World) (ev : EngineEvent) :
  observable ev (heap (disposed w))
  = Observable_remove (observer_slot ev (this w)) (observable ev (heap w)).
Proof. destruct ev; reflexivity. Qed.

Lemma disposed_Engine_ok (w : World) :
  Engine_ok (heap w) -> Engine_ok (heap (disposed w)).
Proof.
  intros Hok. unfold disposed, unregistered; cbn [heap this].
  do 4 apply Engine_remove_ok. exact Hok.
Qed.

Lemma dispose_consistent (w : World) :
  consistent w -> consistent (final (dispose w)).
Proof.
  intros [Hoff Hok Hun]. rewrite (dispose_disposed w Hun). cbn [final].
  split.
  - exact Hoff.
  - apply disposed_Engine_ok, Hok.
  - intros _ ev. apply disposed_slots.
Qed.

Lemma step_consistent (a : Action) (w : World) :
  consistent w -> consistent (final (step a w)).
Proof.
  intros Hc. destruct a as [value|value| |ev|answer].
  - apply (setter_consistent GPUFrameTime value Hc).
  - apply (setter_consistent ShaderCompilationTime value Hc).
  - apply dispose_consistent, Hc.
  - apply (consistent_wiring (w := w)); [|exact Hc].
    symmetry. apply fire_wiring.
  - apply (consistent_wiring (w := w)); [reflexivity | exact Hc].
Qed.

Lemma new_consistent (e : Engine) :
  Engine_ok e -> consistent (constructor e).
Proof. intros Hok; split; cbn; [auto | exact Hok | discriminate]. Qed.

Lemma Engine_fresh_ok (answer : GpuAnswers) : Engine_ok (Engine_fresh answer).
Proof.
  split.
  - intros [] o [].
  - intros [] o [].
  - intros []; constructor.
Qed.

Lemma reachable_consistent (w : World) : reachable w -> consistent w.
Proof.
  induction 1 as [answer|a w _ IH].
  - apply new_consistent, Engine_fresh_ok.
  - apply step_consistent, IH.
Qed.

(** ** The toggles *)

Lemma reachable_run (actions : list Action) (w : World) :
  reachable w -> reachable (run actions w).
Proof.
  revert w; induction actions as [|a rest IH]; intros w Hr; cbn.
  - exact Hr.
  - apply IH, reachable_step, Hr.
Qed.

Lemma new_world_reachable : reachable new_world.
Proof. apply reachable_new. Qed.

(** No assignment to [_captureGPUFrameTime] or to
    [_captureShaderCompilationTime] exists in the class: whatever the world
    and whatever the action, a toggle reads afterwards what it read before. *)
Lemma step_keeps_toggles (tg : Toggle) (a : Action) (w : World) :
  reads (getter tg) (final (step a w)) = reads (getter tg) w.
Proof.
  destruct a as [value|value| |ev|answer].
  - destruct tg, value; destruct_world w;
      destruct _captureGPUFrameTime0, engine0 as [[]|]; reflexivity.
  - destruct tg, value; destruct_world w;
      destruct _captureShaderCompilationTime0, engine0 as [[]|]; reflexivity.
  - destruct tg; destruct_world w;
      destruct _onBeginFrameObserver0, _onEndFrameObserver0,
        _onBeforeShaderCompilationObserver0,
        _onAfterShaderCompilationObserver0, engine0 as [[]|]; reflexivity.
  - destruct (wiring_toggles (fire_wiring ev w)) as [Hg Hs].
    destruct tg; cbn -[fire]; assumption.
  - destruct tg; reflexivity.
Qed.

Lemma run_keeps_toggles (tg : Toggle) (actions : list Action) (w : World) :
  reads (getter tg) (run actions w) = reads (getter tg) w.
Proof.
  revert w; induction actions as [|a rest IH]; intros w; cbn; [reflexivity|].
  rewrite IH. apply step_keeps_toggles.
Qed.

Lemma getter_reads (tg : Toggle) (w : World) :
  getter tg w = Normal (reads (getter tg) w) w.
Proof. destruct tg; reflexivity. Qed.

(** C10.  Whatever calls of the two write accessors are made on a newly
    built instrumentation, and with whatever arguments, both read accessors
    [captureGPUFrameTime] and [captureShaderCompilationTime] return [false]
    afterwards (and leave the world as it is): no write accessor assigns the
    boolean field that its guard compares against. *)
Theorem toggles_always_read_false (e : Engine) (calls : list (Toggle * bool)) :
  let w := run (setter_calls calls) (constructor e) in
  get_captureGPUFrameTime w = Normal false w
  /\ get_captureShaderCompilationTime w = Normal false w.
Proof.
  intros w. split.
  - change (get_captureGPUFrameTime w) with (getter GPUFrameTime w).
    rewrite getter_reads. unfold w.
    rewrite run_keeps_toggles. reflexivity.
  - change (get_captureShaderCompilationTime w)
      with (getter ShaderCompilationTime w).
    rewrite getter_reads. unfold w.
    rewrite run_keeps_toggles. reflexivity.
Qed.

(** C1, at the input where the code departs from it.  One call of a write
    accessor with [true] on a newly built instrumentation registers both
    callbacks and fills both handles, while the toggle goes on reading
    [false]: handles and toggle are out of sync. *)
Theorem enabled_toggle_reads_false (tg : Toggle) (answer : GpuAnswers) :
  let w := run [setter tg true] (constructor (Engine_fresh answer)) in
  handles_set tg w = true
  /\ subscriptions (first_event tg) w = 1
  /\ subscriptions (second_event tg) w = 1
  /\ reads (getter tg) w = false
  /\ ~ in_sync tg w.
Proof.
  destruct tg; cbn; repeat split; try reflexivity;
    unfold in_sync; intros [Hsync _]; specialize (Hsync eq_refl);
    discriminate Hsync.
Qed.

(** C2, at the input where the code departs from it.  After a toggle has
    been set to [true], setting it to [false] stops at the guard (the field
    still holds [false]): both handles stay non-null and both callbacks
    stay registered.  The accumulator is indeed left as it was. *)
Theorem disabling_after_enabling_changes_nothing
  (tg : Toggle) (answer : GpuAnswers) :
  let w1 := run [setter tg true] (constructor (Engine_fresh answer)) in
  let w2 := run [setter tg true; setter tg false]
                (constructor (Engine_fresh answer)) in
  step (setter tg false) w1 = Normal tt w1
  /\ handles_set tg w2 = true
  /\ subscriptions (first_event tg) w2 = 1
  /\ subscriptions (second_event tg) w2 = 1
  /\ accumulator tg (this w2) = accumulator tg (this w1).
Proof. destruct tg; cbn; repeat split; reflexivity. Qed.

(** C3, at the input where the code departs from it.  Setting a toggle to
    [true] twice in a row registers each of its two callbacks twice: the
    second call is not stopped by the guard. *)
Theorem enabling_twice_registers_twice (tg : Toggle) (answer : GpuAnswers) :
  let w1 := run [setter tg true] (constructor (Engine_fresh answer)) in
  let w2 := run [setter tg true; setter tg true]
                (constructor (Engine_fresh answer)) in
  step (setter tg true) w1 <> Normal tt w1
  /\ subscriptions (first_event tg) w2 = 2
  /\ subscriptions (second_event tg) w2 = 2.
Proof.
  destruct tg; cbn; repeat split; try reflexivity;
    intros H; injection H as H; discriminate H.
Qed.

(** ** The read accessors *)

(** C8.  Each of the eight read accessors returns its value in the very
    world it was called in: both accumulators, the four handles, the token,
    the two toggle fields and the engine reference are what they were. *)
Theorem read_accessors_are_pure (perf : PerfCounter.Readers) (w : World) :
  get_currentGPUFrameTime perf w
    = Normal (PerfCounter.current perf (_gpuFrameTime (this w))) w
  /\ get_averageGPUFrameTime perf w
    = Normal (PerfCounter.average perf (_gpuFrameTime (this w))) w
  /\ get_currentShaderCompilationTime perf w
    = Normal (PerfCounter.current perf (_shaderCompilationTime (this w))) w
  /\ get_averageShaderCompilationTime perf w
    = Normal (PerfCounter.average perf (_shaderCompilationTime (this w))) w
  /\ get_totalShaderCompilationTime perf w
    = Normal (PerfCounter.total perf (_shaderCompilationTime (this w))) w
  /\ get_compiledShadersCount perf w
    = Normal (PerfCounter.count perf (_shaderCompilationTime (this w))) w
  /\ get_captureGPUFrameTime w
    = Normal (_captureGPUFrameTime (this w)) w
  /\ get_captureShaderCompilationTime w
    = Normal (_captureShaderCompilationTime (this w)) w.
Proof. repeat split. Qed.

(** ** The GPU frame time callbacks *)

Lemma world_eta (w : World) : {| this := this w; heap := heap w |} = w.
Proof. destruct w; reflexivity. Qed.

Lemma on_beginFrame_pending (w : World) (tk : _TimeToken) :
  _gpuFrameTimeToken (this w) = Some tk -> on_beginFrame w = Normal tt w.
Proof. intros H. unfold on_beginFrame, bind, read. rewrite H. reflexivity. Qed.

Lemma on_beginFrame_idle (w : World) :
  _gpuFrameTimeToken (this w) = None ->
  engine (this w) = Some theEngine ->
  on_beginFrame w
  = Normal tt
      {| this := set_gpuFrameTimeToken (Some (timeQueriesStarted (heap w)))
                   (this w);
         heap := snd (startTimeQuery (heap w)) |}.
Proof.
  intros Htk Hb. unfold on_beginFrame, bind, read, this_engine.
  rewrite Htk. cbn. rewrite Hb. reflexivity.
Qed.

Lemma on_beginFrame_unbound (w : World) :
  _gpuFrameTimeToken (this w) = None ->
  engine (this w) = None ->
  on_beginFrame w = TypeError w.
Proof.
  intros Htk Hb. unfold on_beginFrame, bind, read, this_engine.
  rewrite Htk. cbn. rewrite Hb. reflexivity.
Qed.

(** While a token is outstanding, any number of begin-frame callbacks do
    nothing. *)
Lemma notify_beginFrame_pending (obs : list Observer) (w : World)
  (tk : _TimeToken) :
  (forall o, In o obs -> callback o = beginFrameCallback) ->
  _gpuFrameTimeToken (this w) = Some tk ->
  notifyObservers obs w = Normal tt w.
Proof.
  intros Hcb Htk. induction obs as [|o rest IH]; [reflexivity|].
  cbn [notifyObservers]. unfold bind.
  rewrite (Hcb o (or_introl eq_refl)). cbn [run_callback].
  rewrite (on_beginFrame_pending w Htk).
  apply IH. intros o' Hin. apply Hcb. right. exact Hin.
Qed.

Lemma on_endFrame_no_token (w : World) :
  _gpuFrameTimeToken (this w) = None -> on_endFrame w = Normal tt w.
Proof. intros H. unfold on_endFrame, bind, read. rewrite H. reflexivity. Qed.

Lemma on_endFrame_not_ready (w : World) (tk : _TimeToken) :
  engine (this w) = Some theEngine ->
  _gpuFrameTimeToken (this w) = Some tk ->
  number_gt (timeQueryResult (heap w) tk) minus_one = false ->
  on_endFrame w = Normal tt w.
Proof.
  intros Hb Htk Hnot. unfold on_endFrame, bind, read, this_engine.
  rewrite Htk, Hb. cbn -[number_gt minus_one]. rewrite Hnot.
  unfold ret. rewrite world_eta. reflexivity.
Qed.

Lemma on_endFrame_ready (w : World) (tk : _TimeToken) :
  engine (this w) = Some theEngine ->
  _gpuFrameTimeToken (this w) = Some tk ->
  number_gt (timeQueryResult (heap w) tk) minus_one = true ->
  on_endFrame w
  = (assign (set_gpuFrameTimeToken None) ;;
     gpuFrameTime_call PerfCounter.fetchNewFrame ;;
     gpuFrameTime_call
       (PerfCounter.addCount (timeQueryResult (heap w) tk) true))
      {| this := this w; heap := heap w |}.
Proof.
  intros Hb Htk Hgt. unfold on_endFrame, read, this_engine.
  unfold bind at 1. rewrite Htk. unfold bind at 1. rewrite Hb.
  cbn -[bind number_gt minus_one]. rewrite Hgt. reflexivity.
Qed.

Lemma sampled_differs (c : PerfCounter.t) (calls : list PerfCounter.Call) :
  calls <> [] -> c ++ calls <> c.
Proof.
  intros Hne Heq. apply (f_equal (@length _)) in Heq.
  rewrite length_app in Heq. destruct calls; [congruence | cbn in Heq; lia].
Qed.

(** C4, at the input where the code departs from it.  A token is
    outstanding and [endTimeQuery] answers [-0.5], a negative number: the
    callback clears the token and records [-0.5] as a sample, since its
    test is [time > -1].  So a negative answer does not always leave the
    accumulator and the token unchanged. *)
Lemma endFrame_samples_negative_answer :
  _gpuFrameTimeToken (this frame_half_negative) = Some 0
  /\ number_gt zero (timeQueryResult (heap frame_half_negative) 0) = true
  /\ _gpuFrameTimeToken (this (final (on_endFrame frame_half_negative))) = None
  /\ _gpuFrameTime (this (final (on_endFrame frame_half_negative)))
     = [PerfCounter.fetchNewFrame;
        PerfCounter.addCount (Finite (-1 # 2)) true]
  /\ ~ samples_iff_non_negative frame_half_negative.
Proof.
  repeat split.
  intros [_ Hunchanged].
  specialize (Hunchanged 0 eq_refl eq_refl).
  apply (f_equal (fun w => _gpuFrameTimeToken (this w))) in Hunchanged.
  discriminate Hunchanged.
Qed.

(** C4, as the code has it.  With the engine bound, the end-frame callback
    always returns, and it records a new sample in the GPU frame time
    accumulator exactly when a token is outstanding and [endTimeQuery]
    answers a number greater than [-1]; the sample is then that number.
    With no token outstanding, or with an answer that is not greater than
    [-1] (the sentinel [-1], anything below it, [NaN]), the callback leaves
    the whole world, so the accumulator and the token as well, as it found
    it. *)
Theorem endFrame_samples_iff_resolved (w : World)
  (Hbound : engine (this w) = Some theEngine) :
  exists w', on_endFrame w = Normal tt w'
    /\ (_gpuFrameTime (this w') <> _gpuFrameTime (this w)
        <-> exists tk,
              _gpuFrameTimeToken (this w) = Some tk
              /\ number_gt (timeQueryResult (heap w) tk) minus_one = true)
    /\ (forall tk, _gpuFrameTimeToken (this w) = Some tk ->
          number_gt (timeQueryResult (heap w) tk) minus_one = true ->
          _gpuFrameTime (this w')
          = _gpuFrameTime (this w)
              ++ [PerfCounter.fetchNewFrame;
                  PerfCounter.addCount (timeQueryResult (heap w) tk) true])
    /\ (_gpuFrameTimeToken (this w) = None -> w' = w)
    /\ (forall tk, _gpuFrameTimeToken (this w) = Some tk ->
          number_gt (timeQueryResult (heap w) tk) minus_one = false ->
          w' = w).
Proof.
  destruct (_gpuFrameTimeToken (this w)) as [tk|] eqn:Htk.
  - destruct (number_gt (timeQueryResult (heap w) tk) minus_one) eqn:Hgt.
    + rewrite (on_endFrame_ready w Hbound Htk Hgt).
      eexists. split; [reflexivity|]. cbn -[number_gt minus_one].
      unfold PerfCounter.invoke. rewrite <- app_assoc. cbn [app].
      split; [|split; [|split]].
      * split; [exists tk; auto|]. intros _.
        apply sampled_differs. discriminate.
      * intros tk' Heq _. injection Heq as <-. reflexivity.
      * discriminate.
      * intros tk' Heq Hnot. injection Heq as <-. congruence.
    + exists w. split; [apply (on_endFrame_not_ready w Hbound Htk Hgt)|].
      split; [|split; [|split]].
      * split; [congruence|]. intros (tk' & Heq & Hgt').
        injection Heq as <-. congruence.
      * intros tk' Heq Hgt'. injection Heq as <-. congruence.
      * discriminate.
      * reflexivity.
  - exists w. split; [apply (on_endFrame_no_token w Htk)|].
    split; [|split; [|split]].
    + split; [congruence|]. intros (tk & Heq & _). discriminate.
    + discriminate.
    + reflexivity.
    + discriminate.
Qed.

Lemma endFrame_samples_iff_resolved_witness :
  engine (this frame_half_negative) = Some theEngine
  /\ exists w', on_endFrame frame_half_negative = Normal tt w'
    /\ (_gpuFrameTime (this w') <> _gpuFrameTime (this frame_half_negative)
        <-> exists tk,
              _gpuFrameTimeToken (this frame_half_negative) = Some tk
              /\ number_gt (timeQueryResult (heap frame_half_negative) tk)
                   minus_one = true)
    /\ (forall tk, _gpuFrameTimeToken (this frame_half_negative) = Some tk ->
          number_gt (timeQueryResult (heap frame_half_negative) tk)
            minus_one = true ->
          _gpuFrameTime (this w')
          = _gpuFrameTime (this frame_half_negative)
              ++ [PerfCounter.fetchNewFrame;
                  PerfCounter.addCount
                    (timeQueryResult (heap frame_half_negative) tk) true])
    /\ (_gpuFrameTimeToken (this frame_half_negative) = None
        -> w' = frame_half_negative)
    /\ (forall tk, _gpuFrameTimeToken (this frame_half_negative) = Some tk ->
          number_gt (timeQueryResult (heap frame_half_negative) tk)
            minus_one = false ->
          w' = frame_half_negative).
Proof.
  split; [reflexivity|].
  apply (endFrame_samples_iff_resolved frame_half_negative). reflexivity.
Defined.

(** C6.  With the engine bound, a token outstanding and a ready answer
    [time] of [endTimeQuery] (one that passes the test [time > -1], as
    every non-negative time does), the end-frame callback is the sequence:
    clear the token, [fetchNewFrame] on the GPU frame time accumulator,
    then [addCount(time, true)] on it.  It returns in a world where the
    token is null and the accumulator has received exactly these two calls
    in this order; the other accumulator, the wiring and the engine are
    untouched. *)
Theorem endFrame_ready_sequence (w : World) (tk : _TimeToken)
  (Hbound : engine (this w) = Some theEngine)
  (Htoken : _gpuFrameTimeToken (this w) = Some tk)
  (Hready : number_gt (timeQueryResult (heap w) tk) minus_one = true) :
  let time := timeQueryResult (heap w) tk in
  on_endFrame w
  = (assign (set_gpuFrameTimeToken None) ;;
     gpuFrameTime_call PerfCounter.fetchNewFrame ;;
     gpuFrameTime_call (PerfCounter.addCount time true)) w
  /\ exists w', on_endFrame w = Normal tt w'
       /\ _gpuFrameTimeToken (this w') = None
       /\ _gpuFrameTime (this w')
          = _gpuFrameTime (this w)
              ++ [PerfCounter.fetchNewFrame; PerfCounter.addCount time true]
       /\ _shaderCompilationTime (this w') = _shaderCompilationTime (this w)
       /\ wiring w' = wiring w
       /\ heap w' = heap w.
Proof.
  intros time. rewrite (on_endFrame_ready w Hbound Htoken Hready).
  rewrite world_eta. split; [reflexivity|].
  eexists. split; [reflexivity|]. cbn -[number_gt minus_one].
  unfold PerfCounter.invoke. rewrite <- app_assoc.
  repeat split.
Qed.

Lemma endFrame_ready_sequence_witness :
  engine (this frame_in_flight) = Some theEngine
  /\ _gpuFrameTimeToken (this frame_in_flight) = Some 0
  /\ number_gt (timeQueryResult (heap frame_in_flight) 0) minus_one = true
  /\ _gpuFrameTime (this (final (on_endFrame frame_in_flight)))
     = [PerfCounter.fetchNewFrame; PerfCounter.addCount (whole 5000000) true].
Proof.
  split; [reflexivity|]. split; [reflexivity|]. split; [reflexivity|].
  destruct (endFrame_ready_sequence frame_in_flight (tk := 0)
              eq_refl eq_refl eq_refl)
    as (_ & w' & Hrun & _ & Hacc & _).
  rewrite Hrun. exact Hacc.
Defined.

(** What one begin-frame event does in a consistent world: nothing while a
    token is outstanding or nobody is subscribed; otherwise the first
    callback issues one query and the others find its token in place. *)
Lemma fire_beginFrame_cases (w : World) :
  consistent w ->
  final (fire onBeginFrame w) = w
  \/ (_gpuFrameTimeToken (this w) = None
      /\ final (fire onBeginFrame w)
         = {| this := set_gpuFrameTimeToken
                        (Some (timeQueriesStarted (heap w))) (this w);
              heap := snd (startTimeQuery (heap w)) |}).
Proof.
  intros [_ [Hcb _ _] _]. specialize (Hcb onBeginFrame).
  unfold fire. cbn [observable callback_of] in *.
  destruct (_gpuFrameTimeToken (this w)) as [tk|] eqn:Htk.
  - left. rewrite (notify_beginFrame_pending _ w Hcb Htk). reflexivity.
  - destruct (onBeginFrameObservable (heap w)) as [|o rest]; [left; reflexivity|].
    cbn [notifyObservers]. unfold bind.
    rewrite (Hcb o (or_introl eq_refl)). cbn [run_callback].
    destruct (engine (this w)) as [[]|] eqn:Hb.
    + right. split; [reflexivity|].
      rewrite (on_beginFrame_idle w Htk Hb).
      erewrite notify_beginFrame_pending; [reflexivity | | reflexivity].
      intros o' Hin. apply Hcb. right. exact Hin.
    + left. rewrite (on_beginFrame_unbound w Htk Hb). reflexivity.
Qed.

(** C5.  In every reachable world, the begin-frame callback and the whole
    begin-frame event (however many callbacks are subscribed) do nothing
    at all while a token is outstanding; and an event starts at most one
    timing query, which it does only from a null token slot, leaving the
    token of that query in the slot. *)
Theorem one_outstanding_token (w : World) (Hreach : reachable w) :
  let w' := final (fire onBeginFrame w) in
  (forall tk, _gpuFrameTimeToken (this w) = Some tk ->
     on_beginFrame w = Normal tt w /\ fire onBeginFrame w = Normal tt w)
  /\ (timeQueriesStarted (heap w') = timeQueriesStarted (heap w)
      \/ timeQueriesStarted (heap w') = S (timeQueriesStarted (heap w)))
  /\ (timeQueriesStarted (heap w') <> timeQueriesStarted (heap w) ->
      _gpuFrameTimeToken (this w) = None
      /\ _gpuFrameTimeToken (this w') = Some (timeQueriesStarted (heap w))).
Proof.
  intros w'. pose proof (reachable_consistent Hreach) as Hc.
  split; [|split].
  - intros tk Htk. split; [apply (on_beginFrame_pending w Htk)|].
    destruct Hc as [_ [Hcb _ _] _].
    apply (notify_beginFrame_pending _ w (Hcb onBeginFrame) Htk).
  - destruct (fire_beginFrame_cases Hc) as [Heq|[_ Heq]];
      unfold w'; rewrite Heq; [left | right]; reflexivity.
  - destruct (fire_beginFrame_cases Hc) as [Heq|[Htk Heq]];
      unfold w'; rewrite Heq; [congruence|].
    intros _. split; [exact Htk | reflexivity].
Qed.

Lemma frame_in_flight_reachable : reachable frame_in_flight.
Proof. apply reachable_run, new_world_reachable. Qed.

Lemma one_outstanding_token_witness :
  reachable frame_in_flight
  /\ fire onBeginFrame frame_in_flight = Normal tt frame_in_flight.
Proof.
  split; [exact frame_in_flight_reachable|].
  destruct (one_outstanding_token frame_in_flight_reachable) as [Hpending _].
  apply (Hpending 0). reflexivity.
Defined.

(** ** The shader compilation callbacks *)



(** ** Disposal *)

Lemma held_observers_only (obs : Observable) (h : Nullable Observer) :
  NoDup (map observerId obs) ->
  (forall o, In o obs -> h = Some o) ->
  Observable_remove h obs = [].
Proof.
  intros Hnd Hheld. destruct obs as [|a [|b rest]].
  - destruct h; reflexivity.
  - rewrite (Hheld a (or_introl eq_refl)). cbn.
    unfold same_observer. rewrite Nat.eqb_refl. reflexivity.
  - exfalso.
    assert (Hab : a = b).
    { pose proof (Hheld a (or_introl eq_refl)) as Ha.
      pose proof (Hheld b (or_intror (or_introl eq_refl))) as Hb.
      congruence. }
    subst b. cbn in Hnd. inversion Hnd as [|? ? Hnotin _]; subst.
    apply Hnotin. left. reflexivity.
Qed.

(** What [dispose] does with the handles it holds.  In every reachable
    world [dispose] returns normally, and afterwards: the four handles are
    null; the engine reference is null; each observable has lost exactly
    the observer whose handle was held (a null handle takes nothing out),
    so that no handle that was held is registered any more; and where
    the handles held were all that was subscribed, nothing is subscribed
    any more. *)
Lemma dispose_unregisters_held_handles (w : World) (Hreach : reachable w) :
  exists w', dispose w = Normal tt w'
    /\ (forall ev, observer_slot ev (this w') = None)
    /\ engine (this w') = None
    /\ (forall ev,
          observable ev (heap w')
          = Observable_remove (observer_slot ev (this w))
              (observable ev (heap w)))
    /\ (forall ev h, observer_slot ev (this w) = Some h ->
          ~ In h (observable ev (heap w')))
    /\ ((forall ev o, In o (observable ev (heap w)) ->
           observer_slot ev (this w) = Some o) ->
        forall ev, observable ev (heap w') = []).
Proof.
  destruct (reachable_consistent Hreach) as [_ [_ _ Hnd] Hun].
  exists (disposed w). split; [apply (dispose_disposed w Hun)|].
  split; [apply disposed_slots|]. split; [reflexivity|].
  split; [apply disposed_observable|]. split.
  - intros ev h Hh Hin. rewrite disposed_observable, Hh in Hin. cbn in Hin.
    apply (@remove_observer_gone h _ (Hnd ev)).
    apply in_map. exact Hin.
  - intros Hheld ev. rewrite disposed_observable.
    apply held_observers_only; [apply Hnd | apply Hheld].
Qed.

(** C7, at the input where the code departs from it.  A toggle is set to
    [true] twice, then [dispose] is called: it returns with the four
    handles and the engine reference null, yet the two observers that the
    first call registered, whose handles the second call overwrote, are
    still registered with the engine. *)
Theorem dispose_leaves_overwritten_observers
  (tg : Toggle) (answer : GpuAnswers) :
  let w0 := run [setter tg true; setter tg true]
                (constructor (Engine_fresh answer)) in
  let w := run [setter tg true; setter tg true; Dispose]
               (constructor (Engine_fresh answer)) in
  dispose w0 = Normal tt w
  /\ (forall ev, observer_slot ev (this w) = None)
  /\ engine (this w) = None
  /\ observable (first_event tg) (heap w)
     = [{| observerId := 0; callback := callback_of (first_event tg) |}]
  /\ observable (second_event tg) (heap w)
     = [{| observerId := 1; callback := callback_of (second_event tg) |}].
Proof.
  destruct tg; cbn; repeat split; intros []; reflexivity.
Qed.

(** * Further properties of whole histories *)

(** ** What the setters and [dispose] never touch *)



Lemma setter_keeps_engine (tg : Toggle) (value : bool) (w : World) :
  engine (this (final (step (setter tg value) w))) = engine (this w).
Proof.
  destruct tg, value; destruct_world w;
    destruct _captureGPUFrameTime0, _captureShaderCompilationTime0,
      engine0 as [[]|]; reflexivity.
Qed.


(** ** The callbacks keep the books *)

Lemma on_endFrame_unbound (w : World) (tk : _TimeToken) :
  _gpuFrameTimeToken (this w) = Some tk ->
  engine (this w) = None ->
  on_endFrame w = TypeError w.
Proof.
  intros Htk Hb. unfold on_endFrame, bind, read, this_engine.
  rewrite Htk, Hb. reflexivity.
Qed.

Lemma on_endFrame_sampled (w : World) (tk : _TimeToken) :
  engine (this w) = Some theEngine ->
  _gpuFrameTimeToken (this w) = Some tk ->
  number_gt (timeQueryResult (heap w) tk) minus_one = true ->
  on_endFrame w
  = Normal tt
      {| this := set_gpuFrameTime
                   (_gpuFrameTime (this w)
                      ++ sample (timeQueryResult (heap w) tk))
                   (set_gpuFrameTimeToken None (this w));
         heap := heap w |}.
Proof.
  intros Hb Htk Hpos. rewrite (on_endFrame_ready w Hb Htk Hpos).
  cbv [bind assign gpuFrameTime_call PerfCounter.invoke sample
       set_gpuFrameTime set_gpuFrameTimeToken].
  cbn -[app number_gt minus_one]. rewrite <- app_assoc. reflexivity.
Qed.







(** ** Helper facts about single steps *)

Lemma setter_enabled (tg : Toggle) (w : World) :
  reads (getter tg) w = false ->
  engine (this w) = Some theEngine ->
  step (setter tg true) w = Normal tt (enabled tg w).
Proof. intros Hoff Hb. exact (setter_enable tg w Hoff Hb). Qed.

Lemma enabled_own_events (tg : Toggle) (ev : EngineEvent) (w : World) :
  event_of tg ev = true ->
  exists h,
    observer_slot ev (this (enabled tg w)) = Some h
    /\ observable ev (heap (enabled tg w)) = observable ev (heap w) ++ [h]
    /\ callback h = callback_of ev
    /\ observersCreated (heap w) <= observerId h.
Proof.
  destruct tg, ev; cbn; intros Hev; try discriminate Hev;
    eexists; repeat split; cbn; lia.
Qed.

Lemma enabled_other_events (tg : Toggle) (ev : EngineEvent) (w : World) :
  event_of tg ev = false ->
  observer_slot ev (this (enabled tg w)) = observer_slot ev (this w)
  /\ observable ev (heap (enabled tg w)) = observable ev (heap w).
Proof.
  destruct tg, ev; cbn; intros Hev; try discriminate Hev; split; reflexivity.
Qed.

Lemma enabled_measurements (tg : Toggle) (w : World) :
  measurements (enabled tg w) = measurements w.
Proof. destruct tg; reflexivity. Qed.

Lemma disposed_fixed (w : World) :
  (forall ev, observer_slot ev (this w) = None) ->
  engine (this w) = None ->
  disposed w = w.
Proof.
  intros Hslots Hb.
  pose proof (Hslots onBeginFrame) as H1.
  pose proof (Hslots onEndFrame) as H2.
  pose proof (Hslots onBeforeShaderCompilation) as H3.
  pose proof (Hslots onAfterShaderCompilation) as H4.
  clear Hslots. destruct_world w. subst. reflexivity.
Qed.

Lemma run_callback_bound (cb : Callback) (w : World) :
  engine (this w) = Some theEngine ->
  exists w', run_callback cb w = Normal tt w'.
Proof.
  intros Hb. destruct cb; cbn [run_callback].
  - destruct (_gpuFrameTimeToken (this w)) as [tk|] eqn:Htk.
    + exists w. apply (on_beginFrame_pending w Htk).
    + eexists. apply (on_beginFrame_idle w Htk Hb).
  - destruct (_gpuFrameTimeToken (this w)) as [tk|] eqn:Htk.
    + destruct (number_gt (timeQueryResult (heap w) tk) minus_one) eqn:Hpos.
      * eexists. apply (on_endFrame_sampled w Hb Htk Hpos).
      * exists w. apply (on_endFrame_not_ready w Hb Htk Hpos).
    + exists w. apply (on_endFrame_no_token w Htk).
  - eexists. reflexivity.
  - eexists. reflexivity.
Qed.

Lemma notifyObservers_bound (obs : list Observer) (w : World) :
  engine (this w) = Some theEngine ->
  exists w', notifyObservers obs w = Normal tt w'.
Proof.
  revert w; induction obs as [|o rest IH]; intros w Hb.
  - exists w. reflexivity.
  - cbn [notifyObservers]. unfold bind.
    destruct (run_callback_bound (callback o) w Hb) as (w1 & Hrun).
    pose proof (run_callback_wiring (callback o) w) as Hw.
    rewrite Hrun in *. cbn [final] in Hw.
    apply IH. rewrite (wiring_engine Hw). exact Hb.
Qed.

(** ** Helper facts about whole events *)

Lemma notify_endFrame_idle (obs : list Observer) (w : World) :
  (forall o, In o obs -> callback o = endFrameCallback) ->
  _gpuFrameTimeToken (this w) = None ->
  notifyObservers obs w = Normal tt w.
Proof.
  intros Hcb Htk. induction obs as [|o rest IH]; [reflexivity|].
  cbn [notifyObservers]. unfold bind.
  rewrite (Hcb o (or_introl eq_refl)). cbn [run_callback].
  rewrite (on_endFrame_no_token w Htk).
  apply IH. intros o' Hin. apply Hcb. right. exact Hin.
Qed.

Lemma notify_endFrame_not_ready (obs : list Observer) (w : World)
  (tk : _TimeToken) :
  (forall o, In o obs -> callback o = endFrameCallback) ->
  engine (this w) = Some theEngine ->
  _gpuFrameTimeToken (this w) = Some tk ->
  number_gt (timeQueryResult (heap w) tk) minus_one = false ->
  notifyObservers obs w = Normal tt w.
Proof.
  intros Hcb Hb Htk Hneg. induction obs as [|o rest IH]; [reflexivity|].
  cbn [notifyObservers]. unfold bind.
  rewrite (Hcb o (or_introl eq_refl)). cbn [run_callback].
  rewrite (on_endFrame_not_ready w Hb Htk Hneg).
  apply IH. intros o' Hin. apply Hcb. right. exact Hin.
Qed.

Lemma notify_endFrame_ready (o : Observer) (rest : list Observer) (w : World)
  (tk : _TimeToken) :
  (forall o', In o' (o :: rest) -> callback o' = endFrameCallback) ->
  engine (this w) = Some theEngine ->
  _gpuFrameTimeToken (this w) = Some tk ->
  number_gt (timeQueryResult (heap w) tk) minus_one = true ->
  notifyObservers (o :: rest) w
  = Normal tt (sampled (timeQueryResult (heap w) tk) w).
Proof.
  intros Hcb Hb Htk Hpos.
  cbn [notifyObservers]. unfold bind.
  rewrite (Hcb o (or_introl eq_refl)). cbn [run_callback].
  rewrite (on_endFrame_sampled w Hb Htk Hpos).
  apply notify_endFrame_idle; [|reflexivity].
  intros o' Hin. apply Hcb. right. exact Hin.
Qed.

Lemma notify_beginFrame_issues (o : Observer) (rest : list Observer)
  (w : World) :
  (forall o', In o' (o :: rest) -> callback o' = beginFrameCallback) ->
  engine (this w) = Some theEngine ->
  _gpuFrameTimeToken (this w) = None ->
  notifyObservers (o :: rest) w = Normal tt (querying w).
Proof.
  intros Hcb Hb Htk.
  cbn [notifyObservers]. unfold bind.
  rewrite (Hcb o (or_introl eq_refl)). cbn [run_callback].
  rewrite (on_beginFrame_idle w Htk Hb).
  eapply notify_beginFrame_pending; [|reflexivity].
  intros o' Hin. apply Hcb. right. exact Hin.
Qed.

Lemma monitored_nil (w : World) : monitored [] w = w.
Proof.
  destruct w as [t e]; destruct t. unfold monitored; cbn.
  rewrite app_nil_r. reflexivity.
Qed.

Lemma monitored_monitored (a b : list PerfCounter.Call) (w : World) :
  monitored b (monitored a w) = monitored (a ++ b) w.
Proof. unfold monitored; cbn. rewrite app_assoc. reflexivity. Qed.

Lemma notify_monitoring (opening : bool) (obs : list Observer) (w : World) :
  (forall o, In o obs ->
     callback o = if opening then beforeShaderCompilationCallback
                  else afterShaderCompilationCallback) ->
  notifyObservers obs w
  = Normal tt (monitored (for_each_observer (monitoring opening) obs) w).
Proof.
  revert w; induction obs as [|o rest IH]; intros w Hcb.
  - cbn. rewrite monitored_nil. reflexivity.
  - cbn [notifyObservers]. unfold bind.
    rewrite (Hcb o (or_introl eq_refl)).
    assert (Hrun : run_callback
                     (if opening then beforeShaderCompilationCallback
                      else afterShaderCompilationCallback) w
                   = Normal tt (monitored (monitoring opening) w)).
    { destruct opening; cbn [run_callback monitoring].
      - unfold on_beforeShaderCompilation, shaderCompilationTime_call,
          PerfCounter.invoke, bind, assign, monitored, monitoring_start. cbn.
        rewrite <- app_assoc. reflexivity.
      - reflexivity. }
    rewrite Hrun, IH by (intros o' Hin; apply Hcb; right; exact Hin).
    rewrite monitored_monitored. reflexivity.
Qed.

(** ** Held handles stay registered *)

Lemma handles_registered_wiring (w w' : World) :
  wiring w = wiring w' -> handles_registered w -> handles_registered w'.
Proof.
  intros Hw Hreg ev h. rewrite <- (wiring_slot ev Hw),
    <- (wiring_observable ev Hw). apply Hreg.
Qed.

Lemma step_handles_registered (a : Action) (w : World) :
  consistent w -> handles_registered w ->
  handles_registered (final (step a w)).
Proof.
  intros Hc Hreg.
  assert (Hset : forall tg value,
             handles_registered (final (step (setter tg value) w))).
  { intros tg value. pose proof (toggles_off_reads tg Hc) as Hoff.
    destruct value; [|rewrite (setter_same_value tg w Hoff); exact Hreg].
    destruct (engine (this w)) as [[]|] eqn:Hb;
      [|rewrite (setter_enable_unbound tg w Hoff Hb); exact Hreg].
    rewrite (setter_enabled tg w Hoff Hb). cbn [final].
    intros ev h Hh. destruct (event_of tg ev) eqn:Hev.
    - destruct (enabled_own_events tg ev w Hev) as (h' & Hslot & Hobs & _).
      rewrite Hslot in Hh. injection Hh as <-. eexists. exact Hobs.
    - destruct (enabled_other_events tg ev w Hev) as [Hslot Hobs].
      rewrite Hslot in Hh. rewrite Hobs. apply Hreg, Hh. }
  destruct a as [value|value| |ev|answer].
  - apply (Hset GPUFrameTime).
  - apply (Hset ShaderCompilationTime).
  - destruct Hc as [_ _ Hun]. cbn [step].
    rewrite (dispose_disposed w Hun). cbn [final].
    intros ev h Hh. rewrite disposed_slots in Hh. discriminate.
  - apply (handles_registered_wiring (w := w)); [|exact Hreg].
    symmetry. apply fire_wiring.
  - apply (handles_registered_wiring (w := w)); [reflexivity | exact Hreg].
Qed.

Lemma reachable_handles_registered (w : World) :
  reachable w -> handles_registered w.
Proof.
  induction 1 as [answer|a w Hr IH].
  - intros [] h Hh; discriminate Hh.
  - apply step_handles_registered; [apply reachable_consistent, Hr | exact IH].
Qed.

(** ** Worlds used by the examples are reachable *)

Lemma disposed_with_leak_reachable : reachable disposed_with_leak.
Proof. apply reachable_run, new_world_reachable. Qed.

Lemma disposed_in_flight_reachable : reachable disposed_in_flight.
Proof. apply reachable_run, new_world_reachable. Qed.

Lemma gpu_watched_reachable : reachable gpu_watched.
Proof. apply reachable_run, new_world_reachable. Qed.

Lemma all_watched_reachable : reachable all_watched.
Proof. apply reachable_run, new_world_reachable. Qed.

(** ** Exceptions *)

(** X1.  As long as the engine reference is set, nothing throws: every
    setter call, every engine event and [dispose] return normally, and
    only [dispose] unsets the reference. *)
Theorem no_exception_while_bound (w : World) (a : Action)
  (Hreach : reachable w) (Hbound : engine (this w) = Some theEngine) :
  (exists w', step a w = Normal tt w')
  /\ (a <> Dispose -> engine (this (final (step a w))) = Some theEngine).
Proof.
  pose proof (reachable_consistent Hreach) as Hc.
  assert (Hset : forall tg value,
             (exists w', step (setter tg value) w = Normal tt w')
             /\ engine (this (final (step (setter tg value) w)))
                = Some theEngine).
  { intros tg value. split; [|rewrite setter_keeps_engine; exact Hbound].
    pose proof (toggles_off_reads tg Hc) as Hoff. destruct value.
    - eexists. apply (setter_enabled tg w Hoff Hbound).
    - exists w. apply (setter_same_value tg w Hoff). }
  destruct a as [value|value| |ev|answer].
  - destruct (Hset GPUFrameTime value) as [Hrun Heng]. split; auto.
  - destruct (Hset ShaderCompilationTime value) as [Hrun Heng]. split; auto.
  - split; [|congruence]. destruct Hc as [_ _ Hun].
    eexists. apply (dispose_disposed w Hun).
  - split.
    + apply notifyObservers_bound, Hbound.
    + intros _. cbn [step].
      rewrite (wiring_engine (fire_wiring ev w)). exact Hbound.
  - split; [eexists; reflexivity | intros _; exact Hbound].
Qed.

Lemma no_exception_while_bound_witness :
  reachable frame_in_flight
  /\ engine (this frame_in_flight) = Some theEngine
  /\ exists w', step (Fire onEndFrame) frame_in_flight = Normal tt w'.
Proof.
  split; [exact frame_in_flight_reachable|]. split; [reflexivity|].
  exact (proj1 (no_exception_while_bound (Fire onEndFrame)
                  frame_in_flight_reachable eq_refl)).
Defined.

(** X2.  Once the engine reference has been unset it stays unset, and
    from then on setting a toggle to [true] throws a [TypeError] before
    anything is written, while setting it to [false] returns at the
    guard. *)
Theorem enabling_after_dispose_throws (w : World)
  (Hreach : reachable w) (Hunbound : engine (this w) = None) :
  (forall tg, step (setter tg true) w = TypeError w)
  /\ (forall tg, step (setter tg false) w = Normal tt w)
  /\ (forall a, engine (this (final (step a w))) = None).
Proof.
  pose proof (reachable_consistent Hreach) as Hc.
  split; [|split].
  - intros tg. apply setter_enable_unbound;
      [apply toggles_off_reads, Hc | exact Hunbound].
  - intros tg. apply setter_same_value, toggles_off_reads, Hc.
  - intros [value|value| |ev|answer].
    + rewrite (setter_keeps_engine GPUFrameTime). exact Hunbound.
    + rewrite (setter_keeps_engine ShaderCompilationTime). exact Hunbound.
    + destruct Hc as [_ _ Hun]. cbn [step].
      rewrite (dispose_disposed w Hun). reflexivity.
    + cbn [step]. rewrite (wiring_engine (fire_wiring ev w)). exact Hunbound.
    + exact Hunbound.
Qed.

Lemma enabling_after_dispose_throws_witness :
  reachable disposed_with_leak
  /\ engine (this disposed_with_leak) = None
  /\ step (CaptureShaderCompilationTime true) disposed_with_leak
     = TypeError disposed_with_leak.
Proof.
  split; [exact disposed_with_leak_reachable|]. split; [reflexivity|].
  exact (proj1 (enabling_after_dispose_throws
                  disposed_with_leak_reachable eq_refl)
           ShaderCompilationTime).
Defined.

(** X3.  [dispose] may be called again: the second call finds the four
    handles null, skips the four guarded blocks without touching the (null)
    engine reference, and returns normally in the same world. *)
Theorem dispose_twice (w : World) (Hreach : reachable w) :
  exists w', dispose w = Normal tt w' /\ dispose w' = Normal tt w'.
Proof.
  destruct (reachable_consistent Hreach) as [_ _ Hun].
  exists (disposed w). split; [apply (dispose_disposed w Hun)|].
  rewrite dispose_disposed by (intros _; apply disposed_slots).
  rewrite disposed_fixed; [reflexivity | apply disposed_slots | reflexivity].
Qed.

Lemma dispose_twice_witness :
  reachable frame_in_flight
  /\ exists w', dispose frame_in_flight = Normal tt w'
                /\ dispose w' = Normal tt w'.
Proof.
  split; [exact frame_in_flight_reachable|].
  apply (dispose_twice frame_in_flight_reachable).
Defined.

(** X12.  After [dispose], a begin-frame callback that is still
    subscribed (its handle had been overwritten by a second registration)
    throws a [TypeError] on the next begin-frame event when no token is
    held: it calls [startTimeQuery] on the null engine reference. *)
Theorem leaked_beginFrame_throws (w : World)
  (Hreach : reachable w) (Hunbound : engine (this w) = None)
  (Hidle : _gpuFrameTimeToken (this w) = None)
  (Hleak : observable onBeginFrame (heap w) <> []) :
  fire onBeginFrame w = TypeError w.
Proof.
  destruct (reachable_consistent Hreach) as [_ [Hcb _ _] _].
  specialize (Hcb onBeginFrame). unfold fire.
  destruct (observable onBeginFrame (heap w)) as [|o rest]; [congruence|].
  cbn [notifyObservers]. unfold bind.
  rewrite (Hcb o (or_introl eq_refl)). cbn [callback_of run_callback].
  rewrite (on_beginFrame_unbound w Hidle Hunbound). reflexivity.
Qed.

Lemma leaked_beginFrame_throws_witness :
  reachable disposed_with_leak
  /\ engine (this disposed_with_leak) = None
  /\ _gpuFrameTimeToken (this disposed_with_leak) = None
  /\ observable onBeginFrame (heap disposed_with_leak) <> []
  /\ fire onBeginFrame disposed_with_leak = TypeError disposed_with_leak.
Proof.
  assert (Hleak : observable onBeginFrame (heap disposed_with_leak) <> [])
    by discriminate.
  split; [exact disposed_with_leak_reachable|]. split; [reflexivity|].
  split; [reflexivity|]. split; [exact Hleak|].
  exact (leaked_beginFrame_throws disposed_with_leak_reachable
           eq_refl eq_refl Hleak).
Defined.

(** X13.  After [dispose], an end-frame callback that is still subscribed
    throws a [TypeError] on every end-frame event while a token is held: it
    calls [endTimeQuery] on the null engine reference, and the token is
    never resolved. *)
Theorem leaked_endFrame_throws (w : World) (tk : _TimeToken)
  (Hreach : reachable w) (Hunbound : engine (this w) = None)
  (Htoken : _gpuFrameTimeToken (this w) = Some tk)
  (Hleak : observable onEndFrame (heap w) <> []) :
  fire onEndFrame w = TypeError w.
Proof.
  destruct (reachable_consistent Hreach) as [_ [Hcb _ _] _].
  specialize (Hcb onEndFrame). unfold fire.
  destruct (observable onEndFrame (heap w)) as [|o rest]; [congruence|].
  cbn [notifyObservers]. unfold bind.
  rewrite (Hcb o (or_introl eq_refl)). cbn [callback_of run_callback].
  rewrite (on_endFrame_unbound w Htoken Hunbound). reflexivity.
Qed.

Lemma leaked_endFrame_throws_witness :
  reachable disposed_in_flight
  /\ engine (this disposed_in_flight) = None
  /\ _gpuFrameTimeToken (this disposed_in_flight) = Some 0
  /\ observable onEndFrame (heap disposed_in_flight) <> []
  /\ fire onEndFrame disposed_in_flight = TypeError disposed_in_flight.
Proof.
  assert (Hleak : observable onEndFrame (heap disposed_in_flight) <> [])
    by discriminate.
  split; [exact disposed_in_flight_reachable|]. split; [reflexivity|].
  split; [reflexivity|]. split; [exact Hleak|].
  exact (leaked_endFrame_throws disposed_in_flight_reachable
           eq_refl eq_refl Hleak).
Defined.

(** ** Subscriptions over whole histories *)

(** X4.  In no reachable world does setting a toggle to [false] do
    anything: the call returns at the guard, so the branch that would
    unregister the callbacks never runs. *)
Theorem disabling_never_acts (w : World) (tg : Toggle)
  (Hreach : reachable w) :
  step (setter tg false) w = Normal tt w.
Proof.
  apply setter_same_value, toggles_off_reads, reachable_consistent, Hreach.
Qed.

Lemma disabling_never_acts_witness :
  reachable all_watched
  /\ step (CaptureShaderCompilationTime false) all_watched
     = Normal tt all_watched.
Proof.
  split; [exact all_watched_reachable|].
  exact (disabling_never_acts ShaderCompilationTime all_watched_reachable).
Defined.

(** X5.  With the engine reference set, every call that sets a toggle to
    [true] subscribes again: each of the toggle's two observables gets one
    more observer, a new object with the toggle's callback that was not
    registered before, and the toggle's two slots now hold these two new
    observers.  The slots and observables of the other toggle, the token
    and both accumulators are untouched. *)
Theorem enabling_always_subscribes (w : World) (tg : Toggle)
  (Hreach : reachable w) (Hbound : engine (this w) = Some theEngine) :
  exists w', step (setter tg true) w = Normal tt w'
    /\ (forall ev, event_of tg ev = true ->
          exists h,
            observer_slot ev (this w') = Some h
            /\ observable ev (heap w') = observable ev (heap w) ++ [h]
            /\ callback h = callback_of ev
            /\ ~ In h (observable ev (heap w)))
    /\ (forall ev, event_of tg ev = false ->
          observer_slot ev (this w') = observer_slot ev (this w)
          /\ observable ev (heap w') = observable ev (heap w))
    /\ measurements w' = measurements w.
Proof.
  pose proof (reachable_consistent Hreach) as Hc.
  exists (enabled tg w).
  split; [apply (setter_enabled tg w (toggles_off_reads tg Hc) Hbound)|].
  split; [|split].
  - intros ev Hev.
    destruct (enabled_own_events tg ev w Hev) as (h & Hslot & Hobs & Hcb & Hid).
    exists h. repeat split; auto.
    intros Hin. destruct Hc as [_ [_ Hids _] _].
    specialize (Hids ev h Hin). lia.
  - intros ev Hev. apply (enabled_other_events tg ev w Hev).
  - apply enabled_measurements.
Qed.

Lemma enabling_always_subscribes_witness :
  reachable all_watched
  /\ engine (this all_watched) = Some theEngine
  /\ exists w', step (CaptureGPUFrameTime true) all_watched = Normal tt w'
                /\ measurements w' = measurements all_watched.
Proof.
  split; [exact all_watched_reachable|]. split; [reflexivity|].
  destruct (enabling_always_subscribes GPUFrameTime
              all_watched_reachable eq_refl) as (w' & Hrun & _ & _ & Hm).
  exists w'. split; [exact Hrun | exact Hm].
Defined.

(** X6.  A handle that is held is always a registered observer: it is
    among the observers of its own observable and carries that
    observable's callback, so the [remove] calls of [dispose] always find
    it. *)
Theorem held_handle_is_registered (w : World) (ev : EngineEvent)
  (h : Observer) (Hreach : reachable w)
  (Hheld : observer_slot ev (this w) = Some h) :
  In h (observable ev (heap w)) /\ callback h = callback_of ev.
Proof.
  destruct (reachable_handles_registered Hreach ev Hheld) as (earlier & Hobs).
  assert (Hin : In h (observable ev (heap w))).
  { rewrite Hobs, in_app_iff. right. left. reflexivity. }
  split; [exact Hin|].
  destruct (reachable_consistent Hreach) as [_ [Hcb _ _] _].
  apply (Hcb ev). exact Hin.
Qed.

Lemma held_handle_is_registered_witness :
  reachable all_watched
  /\ observer_slot onAfterShaderCompilation (this all_watched)
     = Some {| observerId := 5; callback := afterShaderCompilationCallback |}
  /\ In {| observerId := 5; callback := afterShaderCompilationCallback |}
        (observable onAfterShaderCompilation (heap all_watched)).
Proof.
  split; [exact all_watched_reachable|]. split; [reflexivity|].
  exact (proj1 (held_handle_is_registered onAfterShaderCompilation
                  all_watched_reachable eq_refl)).
Defined.

(** ** The accumulators over whole histories *)





(** X9.  One end-frame event records at most one sample, however many
    end-frame callbacks are subscribed: either the world is unchanged, or
    a token was held, its answer [time] passes the test [time > -1], and
    the event returns with the token cleared and the single pair
    [fetchNewFrame(); addCount(time, true)] recorded. *)
Theorem endFrame_event_samples_once (w : World) (Hreach : reachable w) :
  final (fire onEndFrame w) = w
  \/ exists tk,
       _gpuFrameTimeToken (this w) = Some tk
       /\ number_gt (timeQueryResult (heap w) tk) minus_one = true
       /\ fire onEndFrame w
          = Normal tt (sampled (timeQueryResult (heap w) tk) w).
Proof.
  destruct (reachable_consistent Hreach) as [_ [Hcb _ _] _].
  specialize (Hcb onEndFrame). unfold fire.
  cbn [observable callback_of] in *.
  destruct (_gpuFrameTimeToken (this w)) as [tk|] eqn:Htk.
  - destruct (onEndFrameObservable (heap w)) as [|o rest]; [left; reflexivity|].
    destruct (engine (this w)) as [[]|] eqn:Hb.
    + destruct (number_gt (timeQueryResult (heap w) tk) minus_one) eqn:Hgt.
      * right. exists tk. split; [reflexivity|]. split; [exact Hgt|].
        apply (notify_endFrame_ready w Hcb Hb Htk Hgt).
      * left. rewrite (notify_endFrame_not_ready _ w Hcb Hb Htk Hgt).
        reflexivity.
    + left. cbn [notifyObservers]. unfold bind.
      rewrite (Hcb o (or_introl eq_refl)). cbn [run_callback].
      rewrite (on_endFrame_unbound w Htk Hb). reflexivity.
  - left. rewrite (notify_endFrame_idle _ w Hcb Htk). reflexivity.
Qed.

Lemma endFrame_event_samples_once_witness :
  reachable twice_watched_in_flight
  /\ fire onEndFrame twice_watched_in_flight
     = Normal tt (sampled (Finite (-1 # 2)) twice_watched_in_flight)
  /\ _gpuFrameTime (this (final (fire onEndFrame twice_watched_in_flight)))
     = [PerfCounter.fetchNewFrame;
        PerfCounter.addCount (Finite (-1 # 2)) true].
Proof.
  assert (Hreach : reachable twice_watched_in_flight)
    by (apply reachable_run, new_world_reachable).
  assert (Hrun : fire onEndFrame twice_watched_in_flight
                 = Normal tt
                     (sampled (Finite (-1 # 2)) twice_watched_in_flight)).
  { destruct (endFrame_event_samples_once Hreach)
      as [Hsame | (tk & Htk & _ & Hrun)].
    - apply (f_equal (fun w => _gpuFrameTimeToken (this w))) in Hsame.
      discriminate Hsame.
    - injection Htk as <-. exact Hrun. }
  split; [exact Hreach|]. split; [exact Hrun|].
  rewrite Hrun. reflexivity.
Defined.

(** X10.  One before-compilation event makes the calls
    [fetchNewFrame(); beginMonitoring()] once for each before-compilation
    callback subscribed, and one after-compilation event makes the call
    [endMonitoring()] once for each after-compilation callback subscribed;
    nothing else changes.  A capture that was switched on [n] times thus
    counts each compilation [n] times. *)
Theorem compilation_event_counts_every_observer (w : World)
  (Hreach : reachable w) :
  fire onBeforeShaderCompilation w
  = Normal tt
      (monitored
         (for_each_observer monitoring_start
            (observable onBeforeShaderCompilation (heap w))) w)
  /\ fire onAfterShaderCompilation w
     = Normal tt
         (monitored
            (for_each_observer monitoring_end
               (observable onAfterShaderCompilation (heap w))) w).
Proof.
  destruct (reachable_consistent Hreach) as [_ [Hcb _ _] _].
  split.
  - apply (notify_monitoring true). apply (Hcb onBeforeShaderCompilation).
  - apply (notify_monitoring false). apply (Hcb onAfterShaderCompilation).
Qed.

Lemma compilation_event_counts_every_observer_witness :
  reachable all_watched
  /\ _shaderCompilationTime
       (this (final (fire onBeforeShaderCompilation all_watched)))
     = [PerfCounter.fetchNewFrame; PerfCounter.beginMonitoring;
        PerfCounter.fetchNewFrame; PerfCounter.beginMonitoring].
Proof.
  split; [exact all_watched_reachable|].
  rewrite (proj1 (compilation_event_counts_every_observer
                    all_watched_reachable)).
  reflexivity.
Defined.

(** X11.  [dispose] resets no statistics: it returns with the token slot,
    both accumulators and the count of started queries as they were; a
    token that is outstanding stays in its slot. *)
Theorem dispose_keeps_measurements (w : World) (Hreach : reachable w) :
  exists w', dispose w = Normal tt w'
    /\ _gpuFrameTimeToken (this w') = _gpuFrameTimeToken (this w)
    /\ _gpuFrameTime (this w') = _gpuFrameTime (this w)
    /\ _shaderCompilationTime (this w') = _shaderCompilationTime (this w)
    /\ timeQueriesStarted (heap w') = timeQueriesStarted (heap w).
Proof.
  destruct (reachable_consistent Hreach) as [_ _ Hun].
  exists (disposed w). split; [apply (dispose_disposed w Hun)|].
  repeat split.
Qed.

Lemma dispose_keeps_measurements_witness :
  reachable frame_in_flight
  /\ exists w', dispose frame_in_flight = Normal tt w'
       /\ _gpuFrameTimeToken (this w') = Some 0.
Proof.
  split; [exact frame_in_flight_reachable|].
  destruct (dispose_keeps_measurements frame_in_flight_reachable)
    as (w' & Hrun & Htk & _).
  exists w'. split; [exact Hrun | exact Htk].
Defined.

(** X14.  A begin-frame event followed by an end-frame event records
    exactly one sample when the engine reference is set, no token is held,
    both callbacks are subscribed (once or several times) and the GPU has
    the answer ready (it passes the test [time > -1], as every
    non-negative time does): one query is started, its answer is recorded with
    [fetchNewFrame(); addCount(time, true)], and the token slot is null
    again. *)
Theorem frame_round_trip (w : World)
  (Hreach : reachable w) (Hbound : engine (this w) = Some theEngine)
  (Hidle : _gpuFrameTimeToken (this w) = None)
  (Hbegin : observable onBeginFrame (heap w) <> [])
  (Hend : observable onEndFrame (heap w) <> [])
  (Hready : number_gt
              (timeQueryResult (heap w) (timeQueriesStarted (heap w)))
              minus_one = true) :
  let time := timeQueryResult (heap w) (timeQueriesStarted (heap w)) in
  let w' := run [Fire onBeginFrame; Fire onEndFrame] w in
  _gpuFrameTime (this w') = _gpuFrameTime (this w) ++ sample time
  /\ _gpuFrameTimeToken (this w') = None
  /\ timeQueriesStarted (heap w') = S (timeQueriesStarted (heap w))
  /\ wiring w' = wiring w.
Proof.
  intros time w'.
  destruct (reachable_consistent Hreach) as [_ [Hcb _ _] _].
  assert (Hrun : w' = sampled time (querying w)).
  { unfold w'. cbn [run step]. unfold fire at 2.
    pose proof (Hcb onBeginFrame) as Hcb1. cbn [callback_of] in Hcb1.
    destruct (observable onBeginFrame (heap w)) as [|o rest] eqn:Hobs;
      [congruence|].
    rewrite (notify_beginFrame_issues w Hcb1 Hbound Hidle). cbn [final].
    unfold fire.
    pose proof (Hcb onEndFrame) as Hcb2. cbn [callback_of] in Hcb2.
    change (observable onEndFrame (heap (querying w)))
      with (observable onEndFrame (heap w)).
    destruct (observable onEndFrame (heap w)) as [|o' rest'] eqn:Hobs';
      [congruence|].
    rewrite (notify_endFrame_ready (querying w)
               (tk := timeQueriesStarted (heap w)) Hcb2);
      [reflexivity | exact Hbound | reflexivity | exact Hready]. }
  rewrite Hrun. repeat split.
Qed.

Lemma frame_round_trip_witness :
  reachable gpu_watched
  /\ engine (this gpu_watched) = Some theEngine
  /\ _gpuFrameTimeToken (this gpu_watched) = None
  /\ observable onBeginFrame (heap gpu_watched) <> []
  /\ observable onEndFrame (heap gpu_watched) <> []
  /\ number_gt
       (timeQueryResult (heap gpu_watched)
          (timeQueriesStarted (heap gpu_watched))) minus_one = true
  /\ _gpuFrameTime
       (this (run [Fire onBeginFrame; Fire onEndFrame] gpu_watched))
     = [PerfCounter.fetchNewFrame; PerfCounter.addCount (whole 7) true].
Proof.
  assert (Hbegin : observable onBeginFrame (heap gpu_watched) <> [])
    by discriminate.
  assert (Hend : observable onEndFrame (heap gpu_watched) <> [])
    by discriminate.
  assert (Hready : number_gt
                     (timeQueryResult (heap gpu_watched)
                        (timeQueriesStarted (heap gpu_watched)))
                     minus_one = true)
    by reflexivity.
  split; [exact gpu_watched_reachable|]. split; [reflexivity|].
  split; [reflexivity|]. split; [exact Hbegin|]. split; [exact Hend|].
  split; [exact Hready|].
  exact (proj1 (frame_round_trip gpu_watched_reachable
                  eq_refl eq_refl Hbegin Hend Hready)).
Defined.
